(** * Campaign and customer metrics: a shallow embedding

    This development embeds the two analysis scripts of the repository,
    [analyze_campaigns.py] and [analyze_customers.py], and proves the
    properties their specification states about cleaning, ratios, grouped
    aggregates, quantile cut-offs and churn.

    Modelling conventions.
    - A pandas [DataFrame] is a [list] of row records, in index order.  A cell
      that may be missing ([NaN], [None], [NaT]) is an [option].
    - Numbers are exact rationals [Q]; the non-finite results of a numpy
      division ([inf], [-inf], [nan]) are kept, see [float].  Binary rounding
      of float64 is not modelled: every statement below is about the exact
      value of the expression the script evaluates.
    - A timestamp is a [Z] count of nanoseconds since the epoch, as in
      [datetime64[ns]].
    - Exceptions are values of [error]; the one file each script writes is
      an explicit store threaded through [calculate_metrics].
    - [print] calls and the chart generator are left out: they come after
      the values studied here and do not feed back into them. *)

From Stdlib Require Import List String Ascii ZArith QArith Qround Bool Arith.
From Stdlib Require Import Lia Lqa Permutation Sorted.
Import ListNotations.

Set Implicit Arguments.

(** ** Numbers *)

(** The value of a float64 expression: a finite number or one of the three
    IEEE special values numpy returns instead of raising. *)
Inductive float : Type :=
| Fin (q : Q)
| PInf
| NInf
| NaN.

(** [a / b] on numpy scalars.  A zero divisor does not raise: numpy warns
    and returns [inf], [-inf] or [nan] by the sign of the numerator. *)
Definition np_divide (a b : Q) : float :=
  if Qeq_bool b 0 then
    match a ?= 0 with
    | Gt => PInf
    | Lt => NInf
    | Eq => NaN
    end
  else Fin (a / b).

(** [x * 100]. *)
Definition times100 (x : float) : float :=
  match x with
  | Fin q => Fin (q * 100)
  | PInf => PInf
  | NInf => NInf
  | NaN => NaN
  end.


Definition is_finite (x : float) : bool :=
  match x with Fin _ => true | _ => false end.

(** [x < y] on floats; any comparison with [nan] is false. *)
Definition float_ltb (x y : float) : bool :=
  match x, y with
  | NaN, _ | _, NaN => false
  | NInf, NInf => false
  | NInf, _ => true
  | _, NInf => false
  | PInf, _ => false
  | Fin _, PInf => true
  | Fin p, Fin q => negb (Qle_bool q p)
  end.

Definition Qltb (x y : Q) : bool := negb (Qle_bool y x).

(** [Series.sum()]: missing cells are skipped, the empty sum is 0. *)
Definition nanadd (acc : Q) (x : option Q) : Q :=
  match x with
  | Some v => acc + v
  | None => acc
  end.

Definition nansum (col : list (option Q)) : Q := fold_left nanadd col 0.

Definition notna {A : Type} (x : option A) : bool :=
  match x with Some _ => true | None => false end.

(** [col > 0], elementwise; false on a missing cell. *)
Definition gt0 (x : option Q) : bool :=
  match x with
  | Some v => Qltb 0 v
  | None => false
  end.

(** ** Errors and results *)

(** The exceptions the scripts can raise on a data frame.
    - [DateParseError]: [pd.to_datetime] met a string it cannot parse;
    - [EmptyDatasetError]: [idxmax]/[idxmin] of an empty sequence;
    - [AllNaError]: [idxmax]/[idxmin] of a sequence holding only [nan];
    - [ZeroDivisionError]: [/] on Python integers with a zero divisor;
    - [TypeError]: date arithmetic on a cell that is still a string. *)
Inductive error : Type :=
| DateParseError
| EmptyDatasetError
| AllNaError
| ZeroDivisionError
| TypeError.

Inductive result (A : Type) : Type :=
| Ok (a : A)
| Raise (e : error).

Arguments Ok {A} a.
Arguments Raise {A} e.

Definition rbind {A B : Type} (r : result A) (k : A -> result B) : result B :=
  match r with
  | Ok a => k a
  | Raise e => Raise e
  end.

(** Computations that may raise and may write the output file: the store
    [S] is the content of that file. *)
Definition io (S A : Type) : Type := S -> S * result A.

Definition ret {S A : Type} (a : A) : io S A := fun s => (s, Ok a).

Definition bind {S A B : Type} (c : io S A) (k : A -> io S B) : io S B :=
  fun s =>
    match c s with
    | (s', Ok a) => k a s'
    | (s', Raise e) => (s', Raise e)
    end.

Definition lift {S A : Type} (r : result A) : io S A := fun s => (s, r).

Definition write {S : Type} (v : S) : io S unit := fun _ => (v, Ok tt).

Declare Scope io_scope.
Delimit Scope io_scope with io.
Notation "x <- c ;; k" := (bind c (fun x => k))
  (at level 61, c at next level, right associativity) : io_scope.
Notation "c ;;; k" := (bind c (fun _ => k))
  (at level 61, right associativity) : io_scope.

Fixpoint mapM {A B : Type} (f : A -> result B) (l : list A) : result (list B) :=
  match l with
  | [] => Ok []
  | x :: l' =>
      rbind (f x) (fun y => rbind (mapM f l') (fun ys => Ok (y :: ys)))
  end.

(** ** Dates *)

(** A cell of a date column: the text read from the CSV file, a parsed
    timestamp (nanoseconds since 1970-01-01), or missing. *)
Inductive date_cell : Type :=
| DStr (s : string)
| DTime (ns : Z)
| DNaT.

Definition ns_per_day : Z := 86400 * 1000000000.

(** [Timedelta.days]: whole days, rounded towards minus infinity. *)
Definition days (delta : Z) : Z := (delta / ns_per_day)%Z.

(** *** A concrete date format

    [strptime_mdY] reads the format [%m/%d/%Y] (month and day of one or two
    digits, a four-digit year) the way pandas does once it has inferred that
    format for a column, and returns midnight of that day. *)

Definition digit_of (c : ascii) : option Z :=
  let n := Z.of_N (N_of_ascii c) in
  if ((48 <=? n) && (n <=? 57))%Z then Some (n - 48)%Z else None.

Fixpoint number_of (acc : Z) (s : string) : option Z :=
  match s with
  | EmptyString => Some acc
  | String c s' =>
      match digit_of c with
      | Some d => number_of (10 * acc + d)%Z s'
      | None => None
      end
  end.

(** Split at every ["/"]. *)
Fixpoint split_slash (cur : string) (s : string) : list string :=
  match s with
  | EmptyString => [cur]
  | String c s' =>
      if Ascii.eqb c "/"%char then cur :: split_slash EmptyString s'
      else split_slash (cur ++ String c EmptyString)%string s'
  end.

Definition is_leap (y : Z) : bool :=
  ((y mod 4 =? 0) && (negb (y mod 100 =? 0) || (y mod 400 =? 0)))%Z.

Definition days_in_month (y m : Z) : Z :=
  (if m =? 2 then (if is_leap y then 29 else 28)
   else if (m =? 4) || (m =? 6) || (m =? 9) || (m =? 11) then 30
   else 31)%Z.

(** Days from 1970-01-01 to the given civil date (proleptic Gregorian). *)
Definition days_from_civil (y m d : Z) : Z :=
  (let y' := if m <=? 2 then y - 1 else y in
   let era := y' / 400 in
   let yoe := y' - era * 400 in
   let mp := if 2 <? m then m - 3 else m + 9 in
   let doy := (153 * mp + 2) / 5 + d - 1 in
   let doe := yoe * 365 + yoe / 4 - yoe / 100 + doy in
   era * 146097 + doe - 719468)%Z.

Definition field_ok (lo hi : nat) (s : string) : bool :=
  (lo <=? String.length s)%nat && (String.length s <=? hi)%nat.

Definition strptime_mdY (s : string) : option Z :=
  match split_slash EmptyString s with
  | [ms; ds; ys] =>
      if field_ok 1 2 ms && field_ok 1 2 ds && field_ok 4 4 ys then
        match number_of 0 ms, number_of 0 ds, number_of 0 ys with
        | Some m, Some d, Some y =>
            if ((1 <=? m) && (m <=? 12) && (1 <=? d)
                && (d <=? days_in_month y m))%Z
            then Some (days_from_civil y m d * ns_per_day)%Z
            else None
        | _, _, _ => None
        end
      else None
  | _ => None
  end.

(** ** Grouped aggregation *)

(** [df.groupby(key)] followed by a reduction: pandas collects the groups in
    one pass over the rows (rows whose key is missing are left out), folds
    each group's rows in row order, and returns the groups sorted by key. *)
Section GroupBy.
Context {A B : Type}.
Variable zero : B.
Variable step : B -> A -> B.

Fixpoint upsert (k : string) (a : A) (g : list (string * B))
  : list (string * B) :=
  match g with
  | [] => [(k, step zero a)]
  | (k', b) :: g' =>
      if String.eqb k k' then (k', step b a) :: g'
      else (k', b) :: upsert k a g'
  end.

Definition collect1 (g : list (string * B)) (r : option string * A)
  : list (string * B) :=
  match fst r with
  | Some k => upsert k (snd r) g
  | None => g
  end.

Definition collect (rows : list (option string * A)) : list (string * B) :=
  fold_left collect1 rows [].

Fixpoint insert_by_key (x : string * B) (l : list (string * B))
  : list (string * B) :=
  match l with
  | [] => [x]
  | y :: l' =>
      if String.leb (fst x) (fst y) then x :: l
      else y :: insert_by_key x l'
  end.

Definition sort_by_key (l : list (string * B)) : list (string * B) :=
  fold_right insert_by_key [] l.

Definition groupby (rows : list (option string * A)) : list (string * B) :=
  sort_by_key (collect rows).

(** The accumulator a key starts from. *)
Definition or_zero (b : option B) : B :=
  match b with Some x => x | None => zero end.
End GroupBy.

(** What the groups hold, for stating their properties: the value stored
    under a key, and the values of the rows that carry a key. *)
Fixpoint assoc {B : Type} (k : string) (g : list (string * B)) : option B :=
  match g with
  | [] => None
  | (k', b) :: g' => if String.eqb k k' then Some b else assoc k g'
  end.

Definition has_key {A : Type} (k : string) (r : option string * A) : bool :=
  match fst r with
  | Some k' => String.eqb k' k
  | None => false
  end.

Definition values_of {A : Type} (k : string) (rows : list (option string * A))
  : list A :=
  map snd (filter (has_key k) rows).

(** [Series.unique()]: one pass over the column with a table of the values
    already seen, so the distinct values come out in order of first
    appearance.  [nunique] drops the missing cells and counts them. *)
Definition mem (k : string) (seen : list string) : bool :=
  existsb (String.eqb k) seen.

Definition see (seen : list string) (k : string) : list string :=
  if mem k seen then seen else seen ++ [k].

Definition unique (col : list string) : list string := fold_left see col [].

Fixpoint dropna {A : Type} (l : list (option A)) : list A :=
  match l with
  | [] => []
  | Some x :: l' => x :: dropna l'
  | None :: l' => dropna l'
  end.

Definition nunique (col : list (option string)) : nat :=
  List.length (unique (dropna col)).

(** [pd.to_datetime] on one cell: text is parsed (an unparseable text
    raises), a timestamp is returned as it is, a missing cell becomes
    [NaT].  The parser of date text is pandas' own and is a parameter,
    [strptime]; the general statements hold for every parser, the examples
    use [strptime_mdY]. *)
Definition to_datetime (strptime : string -> option Z) (c : date_cell)
  : result date_cell :=
  match c with
  | DStr s =>
      match strptime s with
      | Some t => Ok (DTime t)
      | None => Raise DateParseError
      end
  | DTime t => Ok (DTime t)
  | DNaT => Ok DNaT
  end.

(** [loc[idxmax]] and [loc[idxmin]]: the first row whose key is best, [nan]
    keys skipped. *)
Section ArgBest.
Context {A : Type}.
Variable key : A -> float.
Variable better : float -> float -> bool.

Definition challenge (best : option A) (x : A) : option A :=
  match key x with
  | NaN => best
  | _ =>
      match best with
      | None => Some x
      | Some y => if better (key x) (key y) then Some x else best
      end
  end.

Definition loc_best (rows : list A) : result A :=
  match rows with
  | [] => Raise EmptyDatasetError
  | _ =>
      match fold_left challenge rows None with
      | Some x => Ok x
      | None => Raise AllNaError
      end
  end.
End ArgBest.

Definition Qnat (n : nat) : Q := inject_Z (Z.of_nat n).

(** ** analyze_campaigns.py *)

Module Campaigns.

Record Row : Type := mkRow {
  Date : date_cell;
  Campaign_ID : option string;
  Impressions : option Q;
  Clicks : option Q;
  Conversions : option Q;
  Spend : option Q;
  Revenue : option Q
}.

Definition DataFrame : Type := list Row.

Definition with_Date (r : Row) (d : date_cell) : Row :=
  {| Date := d; Campaign_ID := Campaign_ID r;
     Impressions := Impressions r; Clicks := Clicks r;
     Conversions := Conversions r; Spend := Spend r;
     Revenue := Revenue r |}.

(** [load_and_clean_data], from the frame [pd.read_csv] returned. *)
Definition load_and_clean_data (strptime : string -> option Z)
  (df : DataFrame) : result DataFrame :=
  (* 1. Handle missing values *)
  let df := filter (fun r => notna (Clicks r) && notna (Spend r)) df in
  (* 2. Ensure non-negative/zero spend *)
  let df := filter (fun r => gt0 (Spend r)) df in
  mapM (fun r => rbind (to_datetime strptime (Date r))
                       (fun d => Ok (with_Date r d))) df.

(** A cleaned data set is one the loader returned. *)
Definition cleaned (strptime : string -> option Z) (df : DataFrame) : Prop :=
  exists raw, load_and_clean_data strptime raw = Ok df.

Definition total_impressions (df : DataFrame) : Q :=
  nansum (map Impressions df).
Definition total_clicks (df : DataFrame) : Q := nansum (map Clicks df).
Definition total_conversions (df : DataFrame) : Q :=
  nansum (map Conversions df).
Definition total_spend (df : DataFrame) : Q := nansum (map Spend df).
Definition total_revenue (df : DataFrame) : Q := nansum (map Revenue df).

Definition ctr (df : DataFrame) : float :=
  times100 (np_divide (total_clicks df) (total_impressions df)).

Definition conversion_rate (df : DataFrame) : float :=
  times100 (np_divide (total_conversions df) (total_clicks df)).

Definition cpl (df : DataFrame) : float :=
  np_divide (total_spend df) (total_conversions df).

(** [((revenue - spend) / spend) * 100], used for the whole frame and for
    each campaign. *)
Definition roi_of (spend revenue : Q) : float :=
  times100 (np_divide (revenue - spend) spend).

Definition roi (df : DataFrame) : float :=
  roi_of (total_spend df) (total_revenue df).

Record Stat : Type := mkStat {
  stat_Campaign_ID : string;
  stat_Spend : Q;
  stat_Revenue : Q;
  stat_ROI : float
}.

Definition add_row (acc : Q * Q) (r : Row) : Q * Q :=
  (nanadd (fst acc) (Spend r), nanadd (snd acc) (Revenue r)).

Definition stat_of (g : string * (Q * Q)) : Stat :=
  {| stat_Campaign_ID := fst g;
     stat_Spend := fst (snd g);
     stat_Revenue := snd (snd g);
     stat_ROI := roi_of (fst (snd g)) (snd (snd g)) |}.

(** [df.groupby('Campaign ID').agg({'Spend': 'sum', 'Revenue': 'sum'})]
    with the [ROI] column added. *)
Definition campaign_stats (df : DataFrame) : list Stat :=
  map stat_of
      (groupby (0, 0) add_row (map (fun r => (Campaign_ID r, r)) df)).

Definition idxmax (stats : list Stat) : result Stat :=
  loc_best stat_ROI (fun x y => float_ltb y x) stats.

Definition idxmin (stats : list Stat) : result Stat :=
  loc_best stat_ROI (fun x y => float_ltb x y) stats.

Record Metrics : Type := mkMetrics {
  CTR : float;
  Conversion_Rate : float;
  CPL : float;
  ROI : float;
  CAC : float;
  Top_Campaign : string;
  Top_Campaign_ROI : float;
  Bottom_Campaign : string;
  Bottom_Campaign_ROI : float
}.

(** The content of [campaign_metrics.json]; [None] while the file has not
    been written. *)
Definition Store : Type := option Metrics.

Definition calculate_metrics (df : DataFrame) : io Store Metrics :=
  (let cac := cpl df in
   let campaign_stats := campaign_stats df in
   top_campaign <- lift (idxmax campaign_stats) ;;
   bottom_campaign <- lift (idxmin campaign_stats) ;;
   let metrics :=
     {| CTR := ctr df;
        Conversion_Rate := conversion_rate df;
        CPL := cpl df;
        ROI := roi df;
        CAC := cac;
        Top_Campaign := stat_Campaign_ID top_campaign;
        Top_Campaign_ROI := stat_ROI top_campaign;
        Bottom_Campaign := stat_Campaign_ID bottom_campaign;
        Bottom_Campaign_ROI := stat_ROI bottom_campaign |} in
   write (Some metrics) ;;;
   ret metrics)%io.

(** The script's entry point; [csv] is [None] when
    [marketing_campaigns.csv] does not exist. *)
Definition main (strptime : string -> option Z) (csv : option DataFrame)
  : io Store unit :=
  match csv with
  | None => ret tt
  | Some raw =>
      (df <- lift (load_and_clean_data strptime raw) ;;
       calculate_metrics df ;;;
       ret tt)%io
  end.

(** *** Vocabulary of the statements *)

(** A percentage: a finite number between 0 and 100. *)
Definition within_0_100 (x : float) : Prop :=
  match x with
  | Fin q => 0 <= q /\ q <= 100
  | _ => False
  end.



(** What the loader guarantees of each row it returns. *)
Definition row_clean (strptime : string -> option Z) (r : Row) : Prop :=
  notna (Clicks r) && notna (Spend r) = true
  /\ gt0 (Spend r) = true
  /\ to_datetime strptime (Date r) = Ok (Date r).

(** The loader up to its date conversion: the rows it keeps. *)
Definition drop_steps (df : DataFrame) : DataFrame :=
  filter (fun r => gt0 (Spend r))
         (filter (fun r => notna (Clicks r) && notna (Spend r)) df).


End Campaigns.

(** ** analyze_customers.py *)

Module Customers.

Record Row : Type := mkRow {
  Customer_ID : option string;
  Order_Date : date_cell;
  Signup_Date : date_cell;
  Order_Amount : option Q;
  Category : option string
}.

Definition DataFrame : Type := list Row.

Definition with_dates (r : Row) (o s : date_cell) : Row :=
  {| Customer_ID := Customer_ID r; Order_Date := o; Signup_Date := s;
     Order_Amount := Order_Amount r; Category := Category r |}.

(** Cell and row equality as [drop_duplicates] sees it: two missing cells
    are equal, numbers are compared by value. *)
Definition opt_eqb {A : Type} (eqb : A -> A -> bool) (x y : option A)
  : bool :=
  match x, y with
  | Some a, Some b => eqb a b
  | None, None => true
  | _, _ => false
  end.

Definition date_eqb (x y : date_cell) : bool :=
  match x, y with
  | DStr s, DStr t => String.eqb s t
  | DTime a, DTime b => Z.eqb a b
  | DNaT, DNaT => true
  | _, _ => false
  end.

Definition row_eqb (r1 r2 : Row) : bool :=
  opt_eqb String.eqb (Customer_ID r1) (Customer_ID r2)
  && date_eqb (Order_Date r1) (Order_Date r2)
  && date_eqb (Signup_Date r1) (Signup_Date r2)
  && opt_eqb Qeq_bool (Order_Amount r1) (Order_Amount r2)
  && opt_eqb String.eqb (Category r1) (Category r2).

(** [df.drop_duplicates()]: a row is kept unless an equal row was kept
    before it. *)
Definition keep_first (kept : DataFrame) (r : Row) : DataFrame :=
  if existsb (row_eqb r) kept then kept else kept ++ [r].

Definition drop_duplicates (df : DataFrame) : DataFrame :=
  fold_left keep_first df [].

(** [load_and_clean_data], from the frame [pd.read_csv] returned. *)
Definition load_and_clean_data (strptime : string -> option Z)
  (df : DataFrame) : result DataFrame :=
  (* 1. Remove duplicates *)
  let df := drop_duplicates df in
  (* 2. Handle missing values *)
  let df :=
    filter (fun r => notna (Order_Amount r) && notna (Customer_ID r)) df in
  (* 3. Filter invalid amounts *)
  let df := filter (fun r => gt0 (Order_Amount r)) df in
  (* Convert dates *)
  mapM (fun r =>
          rbind (to_datetime strptime (Order_Date r)) (fun o =>
          rbind (to_datetime strptime (Signup_Date r)) (fun s =>
          Ok (with_dates r o s)))) df.

Definition cleaned (strptime : string -> option Z) (df : DataFrame) : Prop :=
  exists raw, load_and_clean_data strptime raw = Ok df.

(** The timestamp in a parsed date cell; [None] is [NaT]. *)
Definition timestamp (c : date_cell) : option Z :=
  match c with
  | DTime t => Some t
  | _ => None
  end.

Definition is_str (c : date_cell) : bool :=
  match c with DStr _ => true | _ => false end.

(** [max] of timestamps, [NaT] skipped. *)
Definition later (acc : option Z) (t : option Z) : option Z :=
  match acc, t with
  | Some a, Some b => Some (Z.max a b)
  | None, _ => t
  | _, None => acc
  end.

Definition by_customer {A : Type} (f : Row -> A) (df : DataFrame)
  : list (option string * A) :=
  map (fun r => (Customer_ID r, f r)) df.

Definition active_customers (df : DataFrame) : nat :=
  nunique (map Customer_ID df).

(** [len(df) / active_customers] on Python integers. *)
Definition py_divide (a b : nat) : result float :=
  match b with
  | O => Raise ZeroDivisionError
  | _ => Ok (Fin (Qnat a / Qnat b))
  end.

Definition total_revenue (df : DataFrame) : Q :=
  nansum (map Order_Amount df).

(** [df.groupby('Customer ID').size()] *)
Definition order_counts (df : DataFrame) : list (string * nat) :=
  groupby O (fun n (_ : unit) => S n) (by_customer (fun _ => tt) df).

Definition retained_customers (df : DataFrame) : nat :=
  List.length (filter (fun g => (1 <? snd g)%nat) (order_counts df)).

Definition retention_rate (df : DataFrame) : float :=
  times100 (np_divide (Qnat (retained_customers df))
                      (Qnat (active_customers df))).

(** [df.groupby('Customer ID')['Order Date'].max()] *)
Definition last_order_date (df : DataFrame) : list (string * option Z) :=
  groupby None later (by_customer (fun r => timestamp (Order_Date r)) df).

(** [df['Order Date'].max()].  The script's comment speaks of the max date
    plus one day; the code takes the max date as it is, and so does this
    definition. *)
Definition current_date (df : DataFrame) : option Z :=
  fold_left later (map (fun r => timestamp (Order_Date r)) df) None.

(** [(current_date - last).days]; missing when either date is [NaT]. *)
Definition inactive_days (current last : option Z) : option Z :=
  match current, last with
  | Some c, Some l => Some (days (c - l))
  | _, _ => None
  end.

Definition days_inactive (df : DataFrame) : list (string * option Z) :=
  map (fun g => (fst g, inactive_days (current_date df) (snd g)))
      (last_order_date df).

(** [days > 180], false on a missing value. *)
Definition over180 (d : option Z) : bool :=
  match d with
  | Some n => (180 <? n)%Z
  | None => false
  end.

Definition churned_customers (df : DataFrame) : nat :=
  List.length (filter (fun g => over180 (snd g)) (days_inactive df)).

Definition churn_rate (df : DataFrame) : float :=
  times100 (np_divide (Qnat (churned_customers df))
                      (Qnat (active_customers df))).

(** [df.groupby('Customer ID')['Order Amount'].sum()] *)
Definition customer_revenue (df : DataFrame) : list (string * Q) :=
  groupby 0 nanadd (by_customer Order_Amount df).

Fixpoint insert_sorted (x : Q) (l : list Q) : list Q :=
  match l with
  | [] => [x]
  | y :: l' =>
      if Qle_bool x y then x :: l else y :: insert_sorted x l'
  end.

Definition sort_values (l : list Q) : list Q :=
  fold_right insert_sorted [] l.

(** Linear interpolation at a fractional rank of sorted values: between
    the neighbours [floor rank] and [floor rank + 1], the latter clipped
    to the last index. *)
Definition interpolate (sorted : list Q) (rank : Q) : Q :=
  let lo := Qfloor rank in
  let hi := Z.min (lo + 1) (Z.of_nat (List.length sorted) - 1) in
  let frac := rank - inject_Z lo in
  let a := nth (Z.to_nat lo) sorted 0 in
  let b := nth (Z.to_nat hi) sorted 0 in
  a + (b - a) * frac.

(** The rank of the quantile [q] among [n] values: [q * (n - 1)]. *)
Definition rank_of (q : Q) (n : nat) : Q := q * inject_Z (Z.of_nat n - 1).

(** [Series.quantile(q)] with the default linear interpolation; [nan]
    for an empty series. *)
Definition quantile (values : list Q) (q : Q) : float :=
  match values with
  | [] => NaN
  | _ =>
      let sorted := sort_values values in
      Fin (interpolate sorted (rank_of q (List.length sorted)))
  end.

(** [revenue >= cutoff] and [revenue < cutoff]; false against [nan]. *)
Definition ge_cutoff (x : Q) (cutoff : float) : bool :=
  match cutoff with
  | Fin c => Qle_bool c x
  | NInf => true
  | PInf => false
  | NaN => false
  end.

Definition lt_cutoff (x : Q) (cutoff : float) : bool :=
  float_ltb (Fin x) cutoff.

Record Segments : Type := mkSegments {
  high_cutoff : float;
  med_cutoff : float;
  high_value_count : nat;
  med_value_count : nat;
  low_value_count : nat
}.

Definition count {A : Type} (p : A -> bool) (l : list A) : nat :=
  List.length (filter p l).

(** Lines 61 to 68 of the script: the segmentation by revenue. *)
Definition segment_customers (df : DataFrame) : Segments :=
  let customer_revenue := map snd (customer_revenue df) in
  let high_cutoff := quantile customer_revenue (8 # 10) in
  let med_cutoff := quantile customer_revenue (5 # 10) in
  {| high_cutoff := high_cutoff;
     med_cutoff := med_cutoff;
     high_value_count :=
       count (fun x => ge_cutoff x high_cutoff) customer_revenue;
     med_value_count :=
       count (fun x => lt_cutoff x high_cutoff && ge_cutoff x med_cutoff)
             customer_revenue;
     low_value_count :=
       count (fun x => lt_cutoff x med_cutoff) customer_revenue |}.

Record Metrics : Type := mkMetrics {
  Active_Customers : nat;
  Buying_Frequency : float;
  Total_Revenue : float;
  Retention_Rate : float;
  Churn_Rate : float;
  High_Value_Cutoff : float;
  High_Value_Count : nat;
  Medium_Value_Count : nat;
  Low_Value_Count : nat
}.

(** The content of [customer_metrics.json]. *)
Definition Store : Type := option Metrics.

(** Subtracting order dates raises on a column that still holds text. *)
Definition check_dates (df : DataFrame) : result unit :=
  if existsb (fun r => is_str (Order_Date r)) df then Raise TypeError
  else Ok tt.

Definition calculate_metrics (df : DataFrame) : io Store Metrics :=
  (let active_customers := active_customers df in
   buying_freq <- lift (py_divide (List.length df) active_customers) ;;
   let total_revenue := total_revenue df in
   let retention_rate := retention_rate df in
   lift (check_dates df) ;;;
   let churn_rate := churn_rate df in
   let seg := segment_customers df in
   let metrics :=
     {| Active_Customers := active_customers;
        Buying_Frequency := buying_freq;
        Total_Revenue := Fin total_revenue;
        Retention_Rate := retention_rate;
        Churn_Rate := churn_rate;
        High_Value_Cutoff := high_cutoff seg;
        High_Value_Count := high_value_count seg;
        Medium_Value_Count := med_value_count seg;
        Low_Value_Count := low_value_count seg |} in
   write (Some metrics) ;;;
   ret metrics)%io.

(** The script's entry point; [csv] is [None] when
    [customer_transactions.csv] does not exist. *)
Definition main (strptime : string -> option Z) (csv : option DataFrame)
  : io Store unit :=
  match csv with
  | None => ret tt
  | Some raw =>
      (df <- lift (load_and_clean_data strptime raw) ;;
       calculate_metrics df ;;;
       ret tt)%io
  end.

(** *** The customers of a data set, one by one

    The properties below are stated against these direct definitions,
    which look at one customer at a time instead of grouping. *)

Definition customers (df : DataFrame) : list string :=
  unique (dropna (map Customer_ID df)).

Definition is_customer (k : string) (r : Row) : bool :=
  match Customer_ID r with
  | Some k' => String.eqb k' k
  | None => false
  end.

Definition orders_of (k : string) (df : DataFrame) : DataFrame :=
  filter (is_customer k) df.

Definition order_count (df : DataFrame) (k : string) : nat :=
  List.length (orders_of k df).

Definition spent_by (df : DataFrame) (k : string) : Q :=
  nansum (map Order_Amount (orders_of k df)).

Definition last_order_of (df : DataFrame) (k : string) : option Z :=
  fold_left later
    (map (fun r => timestamp (Order_Date r)) (orders_of k df)) None.

(** The order dates of a frame, as timestamps. *)
Definition order_times (df : DataFrame) : list (option Z) :=
  map (fun r => timestamp (Order_Date r)) df.

(** Churned: the last order is more than 180 whole days before the latest
    order date of the data set. *)
Definition churned (df : DataFrame) (k : string) : bool :=
  over180 (inactive_days (current_date df) (last_order_of df k)).

(** What the loader guarantees of each row it returns. *)
Definition row_clean (strptime : string -> option Z) (r : Row) : Prop :=
  notna (Order_Amount r) && notna (Customer_ID r) = true
  /\ gt0 (Order_Amount r) = true
  /\ to_datetime strptime (Order_Date r) = Ok (Order_Date r)
  /\ to_datetime strptime (Signup_Date r) = Ok (Signup_Date r).

(** The loader up to its date conversion: the rows it keeps. *)
Definition drop_steps (df : DataFrame) : DataFrame :=
  filter (fun r => gt0 (Order_Amount r))
         (filter (fun r => notna (Order_Amount r) && notna (Customer_ID r))
                 (drop_duplicates df)).

(** No row equals an earlier row. *)
Definition distinct_rows (df : DataFrame) : Prop :=
  ForallOrdPairs (fun r1 r2 => row_eqb r2 r1 = false) df.

(** The segment tests of one customer's revenue, as 0 or 1. *)
Definition in_high (s : Segments) (x : Q) : nat :=
  Nat.b2n (ge_cutoff x (high_cutoff s)).
Definition in_medium (s : Segments) (x : Q) : nat :=
  Nat.b2n (lt_cutoff x (high_cutoff s) && ge_cutoff x (med_cutoff s)).
Definition in_low (s : Segments) (x : Q) : nat :=
  Nat.b2n (lt_cutoff x (med_cutoff s)).

End Customers.

(** ** Example data *)

Module Examples.
Import Campaigns.

Definition campaign (d : string) (id : string) (i c v : Z) (s r : Q) : Row :=
  {| Date := DStr d; Campaign_ID := Some id;
     Impressions := Some (inject_Z i); Clicks := Some (inject_Z c);
     Conversions := Some (inject_Z v); Spend := Some s;
     Revenue := Some r |}.



(** Two days of one campaign. *)
Definition one_campaign : DataFrame :=
  [ campaign "1/5/2024" "CAMP_1" 1000 40 3 50 120;
    campaign "1/6/2024" "CAMP_1" 800 10 1 30 20 ].

Definition parsed (df : DataFrame) : DataFrame :=
  match load_and_clean_data strptime_mdY df with
  | Ok d => d
  | Raise _ => []
  end.

Definition order (id : string) (d : string) (amount : Q) : Customers.Row :=
  {| Customers.Customer_ID := Some id;
     Customers.Order_Date := DStr d;
     Customers.Signup_Date := DStr "1/1/2023";
     Customers.Order_Amount := Some amount;
     Customers.Category := Some "Books"%string |}.

Definition loaded (df : Customers.DataFrame) : Customers.DataFrame :=
  match Customers.load_and_clean_data strptime_mdY df with
  | Ok d => d
  | Raise _ => []
  end.

(** The same order exported twice, the day spelled in two ways. *)
Definition respelled : Customers.DataFrame :=
  [ order "C1" "1/2/2024" 10; order "C1" "01/02/2024" 10 ].

(** Three customers with one, two and three orders. *)
Definition trio : Customers.DataFrame :=
  [ order "C2" "3/1/2024" 20; order "C1" "1/1/2024" 15;
    order "C3" "5/5/2024" 7; order "C2" "9/30/2024" 12;
    order "C3" "6/1/2024" (5 # 2); order "C3" "10/1/2024" 30 ].

(** Two customers: the last order of one is 200 days older than the last
    order of the other. *)
Definition pair : Customers.DataFrame :=
  [ order "A" "12/1/2023" 40; order "A" "1/1/2024" 25;
    order "B" "7/19/2024" 60 ].

End Examples.

(** ** Vocabulary of the further properties *)

(** The cells of a campaign row other than its date. *)
Definition campaign_fields (r : Campaigns.Row)
  : option string * option Q * option Q * option Q * option Q * option Q :=
  (Campaigns.Campaign_ID r, Campaigns.Impressions r, Campaigns.Clicks r,
   Campaigns.Conversions r, Campaigns.Spend r, Campaigns.Revenue r).

(** The cells of a customer row other than its two dates. *)
Definition customer_fields (r : Customers.Row)
  : option string * option Q * option string :=
  (Customers.Customer_ID r, Customers.Order_Amount r, Customers.Category r).

(** A date cell [pd.to_datetime] raises on. *)
Definition bad_date (strptime : string -> option Z) (c : date_cell) : Prop :=
  exists s, c = DStr s /\ strptime s = None.

(** A date cell after parsing: a timestamp or [NaT], no text. *)
Definition parsed_date (c : date_cell) : Prop :=
  match c with DStr _ => False | _ => True end.

(** ** The calendar of a timestamp *)

(** The civil date of a day count from 1970-01-01, the inverse of
    [days_from_civil]. *)
Definition civil_from_days (n : Z) : Z * Z * Z :=
  (let z := n + 719468 in
   let era := z / 146097 in
   let doe := z - era * 146097 in
   let yoe := (doe - doe / 1460 + doe / 36524 - doe / 146096) / 365 in
   let doy := doe - (365 * yoe + yoe / 4 - yoe / 100) in
   let mp := (5 * doy + 2) / 153 in
   let d := doy - (153 * mp + 2) / 5 + 1 in
   let m := if mp <? 10 then mp + 3 else mp - 9 in
   let y := yoe + era * 400 in
   (if m <=? 2 then y + 1 else y, m, d))%Z.

Definition digit_char (d : Z) : ascii := ascii_of_N (Z.to_N (48 + d)).

Definition two_digits (n : Z) : string :=
  String (digit_char (n / 10)) (String (digit_char (n mod 10)) EmptyString).

Definition four_digits (n : Z) : string :=
  (two_digits (n / 100) ++ two_digits (n mod 100))%string.

(** [dt.to_period('M')] as [astype(str)] prints it: ["2024-01"].  Over the
    years a timestamp can hold the printed months have one width, so their
    order as strings is their order in time, which is the order the script
    groups them in. *)
Definition to_period_M (t : Z) : string :=
  let '(y, m, _) := civil_from_days (t / ns_per_day) in
  (four_digits y ++ "-" ++ two_digits m)%string.

(** The days of the week, in the order the customer script lists them. *)
Definition days_order : list string :=
  ["Monday"; "Tuesday"; "Wednesday"; "Thursday"; "Friday"; "Saturday";
   "Sunday"]%string.

(** [dt.day_name()]: 1970-01-01 was a Thursday. *)
Definition day_name (t : Z) : string :=
  nth (Z.to_nat ((t / ns_per_day + 3) mod 7)) days_order "Monday"%string.

(** The [.dt] accessor raises on a column that still holds text (an
    [AttributeError] in pandas; the model has the one error for date
    operations on text). *)
Definition dt_accessor (col : list date_cell) : result (list (option Z)) :=
  if existsb Customers.is_str col then Raise TypeError
  else Ok (map Customers.timestamp col).

(** A day count whose civil date [days_from_civil] maps back to it, with
    a month from 1 to 12 and a day of that month. *)
Definition calendar_ok (n : Z) : bool :=
  let '(y, m, d) := civil_from_days n in
  ((days_from_civil y m d =? n) && (1 <=? m) && (m <=? 12) && (1 <=? d)
   && (d <=? days_in_month y m))%Z.

Fixpoint calendar_ok_from (start : Z) (count : nat) (acc : bool) : bool :=
  match count with
  | O => acc
  | S c => calendar_ok_from (start + 1) c (acc && calendar_ok start)
  end.

(** ** The tables behind the campaign charts *)

Module CampaignCharts.

(** [(df['Conversions'] / df['Clicks']) * 100], row by row: a missing cell
    gives [nan], a zero divisor [inf] or [nan]. *)
Definition series_divide (a b : option Q) : float :=
  match a, b with
  | Some x, Some y => np_divide x y
  | _, _ => NaN
  end.

Definition Daily_Conv_Rate (r : Campaigns.Row) : float :=
  times100 (series_divide (Campaigns.Conversions r) (Campaigns.Clicks r)).

(** [df.groupby('Month')['Impressions'].sum()], the months printed. *)
Definition monthly_impressions (months : list (option string))
  (df : Campaigns.DataFrame) : list (string * Q) :=
  groupby 0 nanadd (combine months (map Campaigns.Impressions df)).

Definition add_clicks (acc : Q * Q) (r : Campaigns.Row) : Q * Q :=
  (nanadd (fst acc) (Campaigns.Clicks r),
   nanadd (snd acc) (Campaigns.Impressions r)).

Record MonthCTR : Type := mkMonthCTR {
  ctr_Month : string;
  ctr_Clicks : Q;
  ctr_Impressions : Q;
  ctr_CTR : float
}.

Definition month_ctr_of (g : string * (Q * Q)) : MonthCTR :=
  {| ctr_Month := fst g;
     ctr_Clicks := fst (snd g);
     ctr_Impressions := snd (snd g);
     ctr_CTR := times100 (np_divide (fst (snd g)) (snd (snd g))) |}.

(** [df.groupby('Month').agg({'Clicks': 'sum', 'Impressions': 'sum'})]
    with the [CTR] column added. *)
Definition monthly_ctr (months : list (option string))
  (df : Campaigns.DataFrame) : list MonthCTR :=
  map month_ctr_of (groupby (0, 0) add_clicks (combine months df)).

(** What the four charts are drawn from.  Drawing and saving the images is
    not modelled: [generate_visualizations] returns the tables. *)
Record Figures : Type := mkFigures {
  campaign_roi : list Campaigns.Stat;
  conv_rate_vs_spend : list (option Q * float * option string);
  impressions_trend : list (string * Q);
  ctr_trend : list MonthCTR
}.

Definition generate_visualizations (df : Campaigns.DataFrame)
  : result Figures :=
  (* 1. ROI by Campaign *)
  let campaign_metrics := Campaigns.campaign_stats df in
  (* 2. Conversion Rate vs Spend *)
  let scatter :=
    map (fun r => (Campaigns.Spend r, Daily_Conv_Rate r,
                   Campaigns.Campaign_ID r)) df in
  (* 3. Monthly Impressions Trend *)
  rbind (dt_accessor (map Campaigns.Date df)) (fun dates =>
  let months := map (option_map to_period_M) dates in
  Ok {| campaign_roi := campaign_metrics;
        conv_rate_vs_spend := scatter;
        impressions_trend := monthly_impressions months df;
        (* 4. CTR Trend Over Time *)
        ctr_trend := monthly_ctr months df |}).

(** The rows whose date is not missing. *)
Definition dated (df : Campaigns.DataFrame) : Campaigns.DataFrame :=
  filter (fun r => notna (Customers.timestamp (Campaigns.Date r))) df.

End CampaignCharts.

(** ** The tables behind the customer charts *)

Module CustomerCharts.

(** [df.groupby('Month')['Order Amount'].sum()], the months printed. *)
Definition monthly_revenue (months : list (option string))
  (df : Customers.DataFrame) : list (string * Q) :=
  groupby 0 nanadd (combine months (map Customers.Order_Amount df)).

(** [sort_values(ascending=False)] on a series of sums. *)
Fixpoint insert_desc (x : string * Q) (l : list (string * Q))
  : list (string * Q) :=
  match l with
  | [] => [x]
  | y :: l' =>
      if Qle_bool (snd y) (snd x) then x :: l else y :: insert_desc x l'
  end.

Definition sort_desc (l : list (string * Q)) : list (string * Q) :=
  fold_right insert_desc [] l.

(** [df.groupby('Category')['Order Amount'].sum()
      .sort_values(ascending=False)] *)
Definition category_revenue (df : Customers.DataFrame) : list (string * Q) :=
  sort_desc
    (groupby 0 nanadd
       (map (fun r => (Customers.Category r, Customers.Order_Amount r)) df)).

(** [value_counts()]: how often each value occurs, missing cells left out,
    the most frequent first. *)
Fixpoint insert_count (x : string * nat) (l : list (string * nat))
  : list (string * nat) :=
  match l with
  | [] => [x]
  | y :: l' =>
      if (snd y <=? snd x)%nat then x :: l else y :: insert_count x l'
  end.

Definition value_counts (col : list (option string)) : list (string * nat) :=
  fold_right insert_count []
    (collect O (fun n (_ : unit) => S n) (map (fun k => (k, tt)) col)).

(** [reindex(labels)]: one line per label, missing where the label does
    not occur. *)
Definition reindex (labels : list string) (counts : list (string * nat))
  : list (string * option nat) :=
  map (fun d => (d, assoc d counts)) labels.

(** [df['DayOfWeek'].value_counts().reindex(days_order)] *)
Definition day_counts (days : list (option string))
  : list (string * option nat) :=
  reindex days_order (value_counts days).

(** What the five charts are drawn from; the pie holds the three segment
    counts, computed again. *)
Record Figures : Type := mkFigures {
  revenue_over_time : list (string * Q);
  category_bars : list (string * Q);
  order_distribution : list (option Q);
  day_of_week : list (string * option nat);
  customer_segments : nat * nat * nat
}.

Definition generate_visualizations (df : Customers.DataFrame)
  : result Figures :=
  rbind (dt_accessor (map Customers.Order_Date df)) (fun dates =>
  (* 1. Revenue over time (Monthly) *)
  let months := map (option_map to_period_M) dates in
  (* 4. Sales by Day of Week *)
  let DayOfWeek := map (option_map day_name) dates in
  (* 5. Customer Segments (Pie Chart) *)
  let customer_revenue := map snd (Customers.customer_revenue df) in
  let high_cutoff := Customers.quantile customer_revenue (8 # 10) in
  let med_cutoff := Customers.quantile customer_revenue (5 # 10) in
  let high :=
    Customers.count (fun x => Customers.ge_cutoff x high_cutoff)
                    customer_revenue in
  let med :=
    Customers.count (fun x => Customers.lt_cutoff x high_cutoff
                              && Customers.ge_cutoff x med_cutoff)
                    customer_revenue in
  let low :=
    Customers.count (fun x => Customers.lt_cutoff x med_cutoff)
                    customer_revenue in
  Ok {| revenue_over_time := monthly_revenue months df;
        (* 2. Top Product Categories *)
        category_bars := category_revenue df;
        (* 3. Order Amount Distribution *)
        order_distribution := map Customers.Order_Amount df;
        day_of_week := day_counts DayOfWeek;
        customer_segments := (high, med, low) |}).

(** The rows whose order date is not missing, and the rows that name a
    category. *)
Definition dated (df : Customers.DataFrame) : Customers.DataFrame :=
  filter (fun r => notna (Customers.timestamp (Customers.Order_Date r))) df.

Definition categorised (df : Customers.DataFrame) : Customers.DataFrame :=
  filter (fun r => notna (Customers.Category r)) df.

(** The counts that are present in a table of counts, added up. *)
Definition present_total (t : list (string * option nat)) : nat :=
  list_sum (map (fun g => match snd g with Some n => n | None => O end) t).

End CustomerCharts.

(** ** Vocabulary of the chart tables *)

(** The month of each campaign row and of each order, as the charts key
    them; missing where the date is. *)
Definition campaign_months (df : Campaigns.DataFrame) : list (option string) :=
  map (fun r => option_map to_period_M
                  (Customers.timestamp (Campaigns.Date r))) df.

Definition order_months (df : Customers.DataFrame) : list (option string) :=
  map (fun r => option_map to_period_M
                  (Customers.timestamp (Customers.Order_Date r))) df.

Definition order_days (df : Customers.DataFrame) : list (option string) :=
  map (fun r => option_map day_name
                  (Customers.timestamp (Customers.Order_Date r))) df.

(** A table sorted from the largest sum to the smallest. *)
Definition descending (t : list (string * Q)) : Prop :=
  Sorted (fun x y => snd y <= snd x) t.

(** ** Further example data *)

Module MoreExamples.

(** A kept row whose date is not in the format of the parser. *)
Definition iso_dated : Campaigns.DataFrame :=
  [ Examples.campaign "1/5/2024" "CAMP_1" 1000 40 3 50 120;
    Examples.campaign "2024-01-06" "CAMP_1" 800 10 1 30 20 ].

(** The same bad date, in a row that is dropped for its Spend. *)
Definition iso_dated_unpaid : Campaigns.DataFrame :=
  [ Examples.campaign "1/5/2024" "CAMP_1" 1000 40 3 50 120;
    Examples.campaign "2024-01-06" "CAMP_1" 800 10 1 0 20 ].

(** Three campaigns over a few days; CAMP_B loses money. *)
Definition three_campaigns : Campaigns.DataFrame :=
  [ Examples.campaign "1/5/2024" "CAMP_B" 1000 40 3 50 20;
    Examples.campaign "1/6/2024" "CAMP_A" 800 10 1 30 60;
    Examples.campaign "2/1/2024" "CAMP_C" 500 25 5 10 40;
    Examples.campaign "2/2/2024" "CAMP_A" 700 70 7 20 30 ].

(** Orders that are all refunds or free. *)
Definition refunds : Customers.DataFrame :=
  [ Examples.order "C1" "1/2/2024" 0; Examples.order "C2" "1/3/2024" (-5) ].


(** The same order three times, once with another amount. *)
Definition repeated : Customers.DataFrame :=
  [ Examples.order "C1" "1/2/2024" 10; Examples.order "C1" "1/2/2024" 10;
    Examples.order "C1" "1/2/2024" 12; Examples.order "C1" "1/2/2024" 10 ].



(** Orders in three categories, one order without category. *)
Definition shelves : Customers.DataFrame :=
  [ {| Customers.Customer_ID := Some "C1"%string; Customers.Order_Date := DStr "1/1/2024";
       Customers.Signup_Date := DNaT; Customers.Order_Amount := Some 15;
       Customers.Category := Some "Toys"%string |};
    {| Customers.Customer_ID := Some "C2"%string; Customers.Order_Date := DStr "1/2/2024";
       Customers.Signup_Date := DNaT; Customers.Order_Amount := Some 40;
       Customers.Category := Some "Books"%string |};
    {| Customers.Customer_ID := Some "C1"%string; Customers.Order_Date := DNaT;
       Customers.Signup_Date := DNaT; Customers.Order_Amount := Some 25;
       Customers.Category := Some "Toys"%string |};
    {| Customers.Customer_ID := Some "C3"%string; Customers.Order_Date := DStr "1/8/2024";
       Customers.Signup_Date := DNaT; Customers.Order_Amount := Some 9;
       Customers.Category := None |};
    {| Customers.Customer_ID := Some "C3"%string; Customers.Order_Date := DStr "2/8/2024";
       Customers.Signup_Date := DNaT; Customers.Order_Amount := Some 50;
       Customers.Category := Some "Garden"%string |} ].

End MoreExamples.

(** ** Vocabulary of the campaign table *)


(** The sum of a column of numbers. *)
Definition Qsum (l : list Q) : Q := fold_right Qplus 0 l.

(** A cell as a number, a missing cell counting for nothing. *)
Definition or_0 (x : option Q) : Q :=
  match x with
  | Some v => v
  | None => 0
  end.

(** The rows that carry a key: the rows [groupby] looks at. *)
Definition keyed {A : Type} (rows : list (option string * A)) : list A :=
  map snd (filter (fun r => notna (fst r)) rows).

(** The rows of a campaign frame that name their campaign. *)
Definition named (df : Campaigns.DataFrame) : Campaigns.DataFrame :=
  filter (fun r => notna (Campaigns.Campaign_ID r)) df.


Definition group_total {B : Type} (weight : B -> Q) (g : list (string * B))
  : Q :=
  Qsum (map (fun x => weight (snd x)) g).

(** What a run of a script leaves in its store: the store as it was when
    the run raised or found no input, the record it returned otherwise. *)
Definition all_or_nothing {M : Type} (input : bool) (before : option M)
  (run : option M * result unit) : Prop :=
  match snd run with
  | Raise _ => fst run = before
  | Ok _ => if input then exists m, fst run = Some m else fst run = before
  end.

(** ** Vocabulary of the customer properties *)

(** An Order Amount the loader rejects: missing, zero or negative. *)
Definition amount_not_positive (r : Customers.Row) : Prop :=
  match Customers.Order_Amount r with
  | Some a => a <= 0
  | None => True
  end.

(** A number of days that is not negative, where there is one. *)
Definition not_negative (d : option Z) : Prop :=
  match d with
  | Some n => (0 <= n)%Z
  | None => True
  end.

(** * Properties *)

(** ** Numbers *)

Lemma Qltb_lt (x y : Q) : Qltb x y = true <-> x < y.
Proof.
  unfold Qltb. rewrite negb_true_iff.
  split; intro H.
  - apply Qnot_le_lt. intro Hle. apply Qle_bool_iff in Hle. congruence.
  - destruct (Qle_bool y x) eqn:E; [|reflexivity].
    apply Qle_bool_iff in E. exfalso. apply (Qlt_not_le _ _ H E).
Qed.

Lemma Qltb_ge (x y : Q) : Qltb x y = false <-> y <= x.
Proof.
  unfold Qltb. rewrite negb_false_iff. apply Qle_bool_iff.
Qed.

Lemma Qeq_bool_false (x y : Q) : ~ x == y -> Qeq_bool x y = false.
Proof.
  intro H. destruct (Qeq_bool x y) eqn:E; [|reflexivity].
  apply Qeq_bool_iff in E. contradiction.
Qed.

Lemma np_divide_finite (a b : Q) : ~ b == 0 -> np_divide a b = Fin (a / b).
Proof.
  intro H. unfold np_divide. now rewrite (Qeq_bool_false H).
Qed.


Lemma nansum_from (col : list (option Q)) (acc : Q) :
  fold_left nanadd col acc == acc + nansum col.
Proof.
  unfold nansum. revert acc.
  induction col as [|x col IH]; intro acc; simpl.
  - ring.
  - rewrite IH, (IH (nanadd 0 x)).
    destruct x as [v|]; simpl; ring.
Qed.

Lemma nansum_cons (x : option Q) (col : list (option Q)) :
  nansum (x :: col) == nanadd 0 x + nansum col.
Proof.
  unfold nansum at 1. simpl. apply nansum_from.
Qed.

(** ** Results *)

Lemma mapM_id {A : Type} (f : A -> result A) (l : list A) :
  Forall (fun x => f x = Ok x) l -> mapM f l = Ok l.
Proof.
  induction 1 as [|x l Hx _ IH]; simpl.
  - reflexivity.
  - now rewrite Hx, IH.
Qed.

Lemma mapM_Forall {A B : Type} (f : A -> result B) (P : B -> Prop) :
  forall l l',
    (forall x y, In x l -> f x = Ok y -> P y) ->
    mapM f l = Ok l' -> Forall P l'.
Proof.
  induction l as [|x l IH]; intros l' Hf H; simpl in H.
  - injection H as <-. constructor.
  - destruct (f x) as [y|e] eqn:Ex; simpl in H; [|discriminate].
    destruct (mapM f l) as [ys|e]; simpl in H; [|discriminate].
    injection H as <-. constructor.
    + apply (Hf x); [now left | assumption].
    + apply IH; [|reflexivity]. intros x' y' Hin. apply Hf. now right.
Qed.

Lemma filter_all {A : Type} (p : A -> bool) (l : list A) :
  Forall (fun x => p x = true) l -> filter p l = l.
Proof.
  induction 1 as [|x l Hx _ IH]; simpl.
  - reflexivity.
  - now rewrite Hx, IH.
Qed.

Lemma filter_none {A : Type} (p : A -> bool) (l : list A) :
  Forall (fun x => p x = false) l -> filter p l = [].
Proof.
  induction 1 as [|x l Hx _ IH]; simpl.
  - reflexivity.
  - now rewrite Hx.
Qed.

Lemma to_datetime_parsed (strptime : string -> option Z) (c d : date_cell) :
  to_datetime strptime c = Ok d -> to_datetime strptime d = Ok d.
Proof.
  destruct c as [s|t|]; simpl.
  - destruct (strptime s); [|discriminate]. now injection 1 as <-.
  - now injection 1 as <-.
  - now injection 1 as <-.
Qed.

Lemma to_datetime_not_str (strptime : string -> option Z) (c d : date_cell) :
  to_datetime strptime c = Ok d -> Customers.is_str d = false.
Proof.
  destruct c as [s|t|]; simpl.
  - destruct (strptime s); [|discriminate]. now injection 1 as <-.
  - now injection 1 as <-.
  - now injection 1 as <-.
Qed.

(** ** Distinct values *)

Lemma mem_In (k : string) (seen : list string) :
  mem k seen = true <-> In k seen.
Proof.
  unfold mem. rewrite existsb_exists. split.
  - intros (x & Hx & E). apply String.eqb_eq in E. now subst.
  - intro H. exists k. split; [assumption | apply String.eqb_refl].
Qed.

Lemma see_In (seen : list string) (k x : string) :
  In x (see seen k) <-> In x seen \/ x = k.
Proof.
  unfold see. destruct (mem k seen) eqn:E.
  - apply mem_In in E. split; [tauto|]. intros [H | ->]; assumption.
  - rewrite in_app_iff. simpl. intuition.
Qed.

Lemma see_NoDup (seen : list string) (k : string) :
  NoDup seen -> NoDup (see seen k).
Proof.
  intro H. unfold see. destruct (mem k seen) eqn:E; [assumption|].
  assert (Hk : ~ In k seen).
  { intro Hin. apply mem_In in Hin. congruence. }
  clear E. induction H as [|x l Hx Hl IH]; simpl.
  - constructor; [intros [] | constructor].
  - constructor.
    + rewrite in_app_iff. simpl in *. intuition.
    + apply IH. simpl in Hk. tauto.
Qed.

Lemma seen_In (col seen : list string) (x : string) :
  In x (fold_left see col seen) <-> In x seen \/ In x col.
Proof.
  revert seen. induction col as [|k col IH]; intro seen; simpl.
  - tauto.
  - rewrite IH, see_In. intuition.
Qed.

Lemma seen_NoDup (col seen : list string) :
  NoDup seen -> NoDup (fold_left see col seen).
Proof.
  revert seen. induction col as [|k col IH]; intros seen H; simpl.
  - assumption.
  - apply IH, see_NoDup, H.
Qed.

Lemma unique_In (col : list string) (x : string) :
  In x (unique col) <-> In x col.
Proof. unfold unique. rewrite seen_In. simpl. tauto. Qed.

Lemma unique_NoDup (col : list string) : NoDup (unique col).
Proof. apply seen_NoDup. constructor. Qed.

Lemma dropna_In {A : Type} (col : list (option A)) (x : A) :
  In x (dropna col) <-> In (Some x) col.
Proof.
  induction col as [|[y|] col IH]; simpl.
  - tauto.
  - rewrite IH. split; intros [H | H]; auto.
    + left. now subst.
    + left. now injection H.
  - rewrite IH. split; [auto|]. intros [H | H]; [discriminate | assumption].
Qed.

(** ** Grouped aggregation *)

Section GroupByFacts.
Context {A B : Type}.
Variable zero : B.
Variable step : B -> A -> B.

Lemma upsert_keys (k : string) (a : A) (g : list (string * B)) :
  map fst (upsert zero step k a g) = see (map fst g) k.
Proof.
  induction g as [|[k' b] g IH]; simpl.
  - reflexivity.
  - unfold see in *. simpl.
    destruct (String.eqb k k') eqn:E; simpl.
    + reflexivity.
    + rewrite IH. now destruct (mem k (map fst g)).
Qed.

Lemma collect_keys_from (rows : list (option string * A))
  (g : list (string * B)) :
  map fst (fold_left (collect1 zero step) rows g)
  = fold_left see (dropna (map fst rows)) (map fst g).
Proof.
  revert g. induction rows as [|[[k|] a] rows IH]; intro g; simpl.
  - reflexivity.
  - rewrite IH. unfold collect1. simpl. now rewrite upsert_keys.
  - apply IH.
Qed.

Lemma collect_keys (rows : list (option string * A)) :
  map fst (collect zero step rows) = unique (dropna (map fst rows)).
Proof. apply collect_keys_from. Qed.

Lemma upsert_assoc (k k' : string) (a : A) (g : list (string * B)) :
  assoc k' (upsert zero step k a g)
  = if String.eqb k k' then Some (step (or_zero zero (assoc k g)) a)
    else assoc k' g.
Proof.
  induction g as [|[k0 b] g IH]; simpl.
  - rewrite (String.eqb_sym k' k). now destruct (String.eqb k k').
  - destruct (String.eqb_spec k k0) as [-> | Hk]; simpl.
    + rewrite (String.eqb_sym k' k0). now destruct (String.eqb k0 k').
    + rewrite IH.
      destruct (String.eqb_spec k k') as [<- | Hk'].
      * destruct (String.eqb_spec k k0); [contradiction | reflexivity].
      * reflexivity.
Qed.

Lemma collect_assoc_from (k : string) (rows : list (option string * A))
  (g : list (string * B)) :
  assoc k (fold_left (collect1 zero step) rows g)
  = match values_of k rows with
    | [] => assoc k g
    | vals => Some (fold_left step vals (or_zero zero (assoc k g)))
    end.
Proof.
  revert g. induction rows as [|[[k'|] a] rows IH]; intro g.
  - reflexivity.
  - simpl fold_left. rewrite IH.
    change (collect1 zero step g (Some k', a)) with (upsert zero step k' a g).
    rewrite upsert_assoc.
    change (values_of k ((Some k', a) :: rows))
      with (map snd (if String.eqb k' k then (Some k', a) :: filter (has_key k) rows
                     else filter (has_key k) rows)).
    fold (values_of k rows).
    destruct (String.eqb_spec k' k) as [-> | _].
    + simpl. fold (values_of k rows). now destruct (values_of k rows).
    + reflexivity.
  - simpl fold_left. rewrite IH. reflexivity.
Qed.

Lemma assoc_In (g : list (string * B)) (k : string) (b : B) :
  NoDup (map fst g) -> In (k, b) g -> assoc k g = Some b.
Proof.
  induction g as [|[k' b'] g IH]; simpl; intros Hnd Hin.
  - contradiction.
  - inversion Hnd as [|? ? Hk' Hg]; subst.
    destruct Hin as [E | Hin].
    + injection E as -> ->. now rewrite String.eqb_refl.
    + destruct (String.eqb_spec k k') as [-> | _].
      * exfalso. apply Hk'. apply (in_map fst) in Hin. exact Hin.
      * auto.
Qed.

Lemma by_keys (f : string -> B) (g : list (string * B)) :
  (forall k b, In (k, b) g -> b = f k) ->
  g = map (fun k => (k, f k)) (map fst g).
Proof.
  induction g as [|[k b] g IH]; simpl; intro H.
  - reflexivity.
  - rewrite <- IH by auto. now rewrite <- (H k b) by auto.
Qed.

(** The groups in order of first appearance, each holding the fold of its
    rows. *)
Lemma collect_spec (rows : list (option string * A)) :
  collect zero step rows
  = map (fun k => (k, fold_left step (values_of k rows) zero))
        (unique (dropna (map fst rows))).
Proof.
  rewrite <- collect_keys. apply by_keys.
  intros k b Hin.
  apply assoc_In in Hin.
  - unfold collect in Hin. rewrite collect_assoc_from in Hin. simpl in Hin.
    destruct (values_of k rows); [discriminate | now injection Hin].
  - rewrite collect_keys. apply unique_NoDup.
Qed.

Lemma insert_by_key_perm (x : string * B) (l : list (string * B)) :
  Permutation (insert_by_key x l) (x :: l).
Proof.
  induction l as [|y l IH]; simpl.
  - reflexivity.
  - destruct (String.leb (fst x) (fst y)).
    + reflexivity.
    + rewrite IH. apply perm_swap.
Qed.

Lemma sort_by_key_perm (l : list (string * B)) :
  Permutation (sort_by_key l) l.
Proof.
  induction l as [|x l IH]; simpl.
  - reflexivity.
  - rewrite insert_by_key_perm. now constructor.
Qed.

(** Sorting apart, [groupby] holds one entry per distinct key, with the
    fold of that key's rows. *)
Lemma groupby_spec (rows : list (option string * A)) :
  Permutation (groupby zero step rows)
    (map (fun k => (k, fold_left step (values_of k rows) zero))
         (unique (dropna (map fst rows)))).
Proof.
  unfold groupby. rewrite sort_by_key_perm, collect_spec. reflexivity.
Qed.



End GroupByFacts.

(** ** Campaigns: the loader *)

Section CampaignLoader.
Import Campaigns.
Variable strptime : string -> option Z.

Lemma with_Date_same (r : Row) : with_Date r (Date r) = r.
Proof. now destruct r. Qed.

Lemma campaign_cleaned_rows (raw df : DataFrame) :
  load_and_clean_data strptime raw = Ok df -> Forall (row_clean strptime) df.
Proof.
  unfold load_and_clean_data. apply mapM_Forall.
  intros x y Hin Hy.
  apply filter_In in Hin. destruct Hin as [Hin H2].
  apply filter_In in Hin. destruct Hin as [_ H1].
  destruct (to_datetime strptime (Date x)) as [d|e] eqn:Ed; simpl in Hy;
    [|discriminate].
  injection Hy as <-. unfold row_clean. simpl.
  repeat split; try assumption.
  apply (to_datetime_parsed _ _ Ed).
Qed.

(** Once clean, a campaign frame passes through the loader unchanged. *)
Lemma campaign_loader_fixpoint (df : DataFrame) :
  Forall (row_clean strptime) df -> load_and_clean_data strptime df = Ok df.
Proof.
  intro H. unfold load_and_clean_data.
  rewrite (filter_all (fun r => notna (Clicks r) && notna (Spend r)) (l := df)).
  2:{ eapply Forall_impl; [|exact H]. now intros r (H1 & _). }
  rewrite filter_all.
  2:{ eapply Forall_impl; [|exact H]. now intros r (_ & H2 & _). }
  apply mapM_id.
  eapply Forall_impl; [|exact H].
  intros r (_ & _ & H3). rewrite H3. simpl. now rewrite with_Date_same.
Qed.

End CampaignLoader.

(** ** Campaigns: the metrics *)

Section CampaignMetrics.
Import Campaigns.



End CampaignMetrics.

(** ** Campaigns: the claims *)










(** ** Lists *)

Lemma filter_perm {A : Type} (p : A -> bool) (l l' : list A) :
  Permutation l l' -> Permutation (filter p l) (filter p l').
Proof.
  induction 1 as [|x l l' _ IH|x y l|l l' l'' _ IH1 _ IH2]; simpl.
  - constructor.
  - destruct (p x); [now constructor | assumption].
  - destruct (p x), (p y); try reflexivity. apply perm_swap.
  - now transitivity (filter p l').
Qed.

Lemma count_perm {A : Type} (p : A -> bool) (l l' : list A) :
  Permutation l l' ->
  List.length (filter p l) = List.length (filter p l').
Proof. intro H. apply Permutation_length, filter_perm, H. Qed.

Lemma filter_map_comm {A B : Type} (f : A -> B) (p : B -> bool) (l : list A) :
  filter p (map f l) = map f (filter (fun x => p (f x)) l).
Proof.
  induction l as [|x l IH]; simpl.
  - reflexivity.
  - destruct (p (f x)); simpl; now rewrite IH.
Qed.

Lemma count_map {A B : Type} (f : A -> B) (p : B -> bool) (l : list A) :
  List.length (filter p (map f l))
  = List.length (filter (fun x => p (f x)) l).
Proof. now rewrite filter_map_comm, length_map. Qed.

(** ** Customers: one customer at a time *)

Section CustomerGroups.
Import Customers.

Lemma values_of_customer {A : Type} (f : Row -> A) (k : string)
  (df : DataFrame) :
  values_of k (by_customer f df) = map f (orders_of k df).
Proof.
  unfold values_of, by_customer, orders_of.
  rewrite filter_map_comm, map_map. reflexivity.
Qed.

Lemma by_customer_keys {A : Type} (f : Row -> A) (df : DataFrame) :
  map fst (by_customer f df) = map Customer_ID df.
Proof. unfold by_customer. now rewrite map_map. Qed.

Lemma groupby_customers {A B : Type} (zero : B) (step : B -> A -> B)
  (f : Row -> A) (df : DataFrame) :
  Permutation (groupby zero step (by_customer f df))
    (map (fun k => (k, fold_left step (map f (orders_of k df)) zero))
         (customers df)).
Proof.
  rewrite groupby_spec, by_customer_keys.
  unfold customers.
  erewrite map_ext; [reflexivity|].
  intro k. simpl. now rewrite values_of_customer.
Qed.

Lemma size_is_length {A : Type} (l : list A) (n : nat) :
  fold_left (fun n (_ : unit) => S n) (map (fun _ => tt) l) n
  = (n + List.length l)%nat.
Proof.
  revert n. induction l as [|x l IH]; intro n; simpl.
  - lia.
  - rewrite IH. lia.
Qed.

Lemma order_counts_spec (df : DataFrame) :
  Permutation (order_counts df)
    (map (fun k => (k, order_count df k)) (customers df)).
Proof.
  unfold order_counts. rewrite groupby_customers.
  erewrite map_ext; [reflexivity|].
  intro k. simpl. now rewrite size_is_length.
Qed.

Lemma customer_revenue_spec (df : DataFrame) :
  Permutation (customer_revenue df)
    (map (fun k => (k, spent_by df k)) (customers df)).
Proof. unfold customer_revenue. now rewrite groupby_customers. Qed.

Lemma last_order_date_spec (df : DataFrame) :
  Permutation (last_order_date df)
    (map (fun k => (k, last_order_of df k)) (customers df)).
Proof. unfold last_order_date. now rewrite groupby_customers. Qed.

Lemma active_customers_spec (df : DataFrame) :
  active_customers df = List.length (customers df).
Proof. reflexivity. Qed.

(** The retained customers are the customers with more than one order. *)
Lemma retained_customers_spec (df : DataFrame) :
  retained_customers df
  = List.length (filter (fun k => (1 <? order_count df k)%nat)
                        (customers df)).
Proof.
  unfold retained_customers.
  rewrite (count_perm _ (order_counts_spec df)).
  now rewrite count_map.
Qed.

(** The churned customers are the customers whose last order is more than
    180 whole days before the latest order of the data set. *)
Lemma churned_customers_spec (df : DataFrame) :
  churned_customers df
  = List.length (filter (churned df) (customers df)).
Proof.
  unfold churned_customers, days_inactive.
  rewrite count_map. simpl.
  rewrite (count_perm _ (last_order_date_spec df)).
  now rewrite count_map.
Qed.

Lemma revenue_values_spec (df : DataFrame) :
  Permutation (map snd (customer_revenue df))
              (map (spent_by df) (customers df)).
Proof.
  rewrite (Permutation_map snd (customer_revenue_spec df)).
  now rewrite map_map.
Qed.
End CustomerGroups.

(** ** Customers: the loader *)

Section CustomerLoader.
Import Customers.
Variable strptime : string -> option Z.

Lemma with_dates_same (r : Row) :
  with_dates r (Order_Date r) (Signup_Date r) = r.
Proof. now destruct r. Qed.

Lemma customer_cleaned_rows (raw df : DataFrame) :
  load_and_clean_data strptime raw = Ok df -> Forall (row_clean strptime) df.
Proof.
  unfold load_and_clean_data. apply mapM_Forall.
  intros x y Hin Hy.
  apply filter_In in Hin. destruct Hin as [Hin H2].
  apply filter_In in Hin. destruct Hin as [_ H1].
  destruct (to_datetime strptime (Order_Date x)) as [o|e] eqn:Eo;
    simpl in Hy; [|discriminate].
  destruct (to_datetime strptime (Signup_Date x)) as [s|e] eqn:Es;
    simpl in Hy; [|discriminate].
  injection Hy as <-. unfold row_clean. simpl.
  repeat split; try assumption.
  - apply (to_datetime_parsed _ _ Eo).
  - apply (to_datetime_parsed _ _ Es).
Qed.

Lemma kept_rows_from (df kept : DataFrame) (r : Row) :
  In r (fold_left keep_first df kept) -> In r kept \/ In r df.
Proof.
  revert kept. induction df as [|x df IH]; intros kept H; simpl in *.
  - now left.
  - apply IH in H. destruct H as [H | H]; [|tauto].
    unfold keep_first in H. destruct (existsb (row_eqb x) kept); [tauto|].
    apply in_app_or in H. simpl in H. tauto.
Qed.

Lemma drop_duplicates_incl (df : DataFrame) (r : Row) :
  In r (drop_duplicates df) -> In r df.
Proof.
  intro H. apply kept_rows_from in H. destruct H as [[] | H]. exact H.
Qed.

Lemma keep_all_distinct (df kept : DataFrame) :
  distinct_rows df ->
  (forall k r, In k kept -> In r df -> row_eqb r k = false) ->
  fold_left keep_first df kept = kept ++ df.
Proof.
  intro H. revert kept.
  induction H as [|x df Hx _ IH]; intros kept Hkept; simpl.
  - now rewrite app_nil_r.
  - unfold keep_first at 2.
    assert (E : existsb (row_eqb x) kept = false).
    { apply not_true_is_false. intro E.
      apply existsb_exists in E. destruct E as (k & Hk & E).
      rewrite (Hkept k x Hk) in E; [discriminate | now left]. }
    rewrite E, IH.
    + now rewrite <- app_assoc.
    + intros k r Hk Hr. apply in_app_or in Hk.
      destruct Hk as [Hk | [<- | []]].
      * apply Hkept; [assumption | now right].
      * rewrite Forall_forall in Hx. now apply Hx.
Qed.

(** A frame without two equal rows keeps every row. *)
Lemma drop_duplicates_distinct (df : DataFrame) :
  distinct_rows df -> drop_duplicates df = df.
Proof.
  intro H. unfold drop_duplicates.
  rewrite keep_all_distinct; [reflexivity | exact H | intros k r []].
Qed.

Lemma distinct_snoc (kept : DataFrame) (r : Row) :
  distinct_rows kept ->
  existsb (row_eqb r) kept = false ->
  distinct_rows (kept ++ [r]).
Proof.
  intros H E. induction H as [|x l Hx _ IH]; simpl.
  - repeat constructor.
  - simpl in E. apply orb_false_iff in E. destruct E as [Ex El].
    constructor.
    + apply Forall_app. split; [exact Hx | now constructor].
    + now apply IH.
Qed.

Lemma kept_distinct (df kept : DataFrame) :
  distinct_rows kept -> distinct_rows (fold_left keep_first df kept).
Proof.
  revert kept. induction df as [|r df IH]; intros kept H; simpl.
  - exact H.
  - apply IH. unfold keep_first.
    destruct (existsb (row_eqb r) kept) eqn:E; [exact H|].
    now apply distinct_snoc.
Qed.

Lemma drop_duplicates_is_distinct (df : DataFrame) :
  distinct_rows (drop_duplicates df).
Proof. apply kept_distinct. constructor. Qed.

Lemma distinct_filter (p : Row -> bool) (df : DataFrame) :
  distinct_rows df -> distinct_rows (filter p df).
Proof.
  induction 1 as [|x l Hx _ IH]; simpl.
  - constructor.
  - destruct (p x); [|exact IH].
    constructor; [|exact IH].
    rewrite Forall_forall in *. intros y Hy.
    apply filter_In in Hy. now apply Hx.
Qed.

Lemma filter_twice {A : Type} (p : A -> bool) (l : list A) :
  filter p (filter p l) = filter p l.
Proof.
  apply filter_all. rewrite Forall_forall. intros x Hx.
  now apply filter_In in Hx.
Qed.

Lemma filter_swap {A : Type} (p q : A -> bool) (l : list A) :
  filter p (filter q l) = filter q (filter p l).
Proof.
  induction l as [|x l IH]; simpl.
  - reflexivity.
  - destruct (p x) eqn:Ep, (q x) eqn:Eq; simpl;
      rewrite ?Ep, ?Eq, IH; reflexivity.
Qed.

(** [drop_steps] is the loader before it parses dates. *)
Lemma campaign_loader_steps (df : Campaigns.DataFrame) :
  Campaigns.load_and_clean_data strptime df
  = mapM (fun r => rbind (to_datetime strptime (Campaigns.Date r))
                         (fun d => Ok (Campaigns.with_Date r d)))
         (Campaigns.drop_steps df).
Proof. reflexivity. Qed.

Lemma customer_loader_steps (df : DataFrame) :
  load_and_clean_data strptime df
  = mapM (fun r =>
            rbind (to_datetime strptime (Order_Date r)) (fun o =>
            rbind (to_datetime strptime (Signup_Date r)) (fun s =>
            Ok (with_dates r o s))))
         (drop_steps df).
Proof. reflexivity. Qed.

(** The row-dropping steps of either loader, run twice, drop nothing
    more. *)
Lemma campaign_drop_steps_twice (df : Campaigns.DataFrame) :
  Campaigns.drop_steps (Campaigns.drop_steps df) = Campaigns.drop_steps df.
Proof.
  unfold Campaigns.drop_steps.
  rewrite (filter_swap _ (fun r => gt0 (Campaigns.Spend r))).
  now rewrite !filter_twice.
Qed.

Lemma customer_drop_steps_twice (df : DataFrame) :
  drop_steps (drop_steps df) = drop_steps df.
Proof.
  unfold drop_steps at 1.
  rewrite drop_duplicates_distinct.
  - unfold drop_steps.
    rewrite (filter_swap _ (fun r => gt0 (Order_Amount r))).
    now rewrite !filter_twice.
  - unfold drop_steps.
    apply distinct_filter, distinct_filter, drop_duplicates_is_distinct.
Qed.

(** On rows that are already clean, the loader only removes duplicates. *)
Lemma customer_loader_again (df : DataFrame) :
  Forall (row_clean strptime) df ->
  load_and_clean_data strptime df = Ok (drop_duplicates df).
Proof.
  intro H. unfold load_and_clean_data.
  assert (Hd : Forall (row_clean strptime) (drop_duplicates df)).
  { rewrite Forall_forall in *. intros r Hr.
    apply H, drop_duplicates_incl, Hr. }
  rewrite (filter_all
             (fun r => notna (Order_Amount r) && notna (Customer_ID r))
             (l := drop_duplicates df)).
  2:{ eapply Forall_impl; [|exact Hd]. now intros r (H1 & _). }
  rewrite filter_all.
  2:{ eapply Forall_impl; [|exact Hd]. now intros r (_ & H2 & _). }
  apply mapM_id.
  eapply Forall_impl; [|exact Hd].
  intros r (_ & _ & H3 & H4). rewrite H3, H4. simpl.
  now rewrite with_dates_same.
Qed.

Lemma clean_row_has_customer (r : Row) :
  row_clean strptime r -> exists k, Customer_ID r = Some k.
Proof.
  intros (H & _). apply andb_true_iff in H. destruct H as [_ H].
  destruct (Customer_ID r) as [k|]; [now exists k | discriminate].
Qed.

Lemma clean_row_not_str (r : Row) :
  row_clean strptime r -> is_str (Order_Date r) = false.
Proof.
  intros (_ & _ & H & _). apply (to_datetime_not_str _ _ H).
Qed.

Lemma customer_In (df : DataFrame) (r : Row) (k : string) :
  In r df -> Customer_ID r = Some k -> In k (customers df).
Proof.
  intros Hin Hk. unfold customers.
  rewrite unique_In, dropna_In, <- Hk. now apply in_map.
Qed.

Lemma customers_nonempty (df : DataFrame) :
  Forall (row_clean strptime) df -> df <> [] ->
  (0 < active_customers df)%nat.
Proof.
  intros H Hne. destruct df as [|r df]; [contradiction|].
  inversion H as [|? ? Hr _]; subst.
  destruct (clean_row_has_customer Hr) as (k & Hk).
  assert (Hin : In k (customers (r :: df))).
  { apply customer_In with (r := r); [now left | assumption]. }
  rewrite active_customers_spec.
  destruct (customers (r :: df)); [contradiction | simpl; lia].
Qed.

Lemma check_dates_clean (df : DataFrame) :
  Forall (row_clean strptime) df -> check_dates df = Ok tt.
Proof.
  intro H. unfold check_dates.
  replace (existsb (fun r => is_str (Order_Date r)) df) with false;
    [reflexivity|].
  symmetry. apply not_true_is_false. intro E.
  apply existsb_exists in E. destruct E as (r & Hin & E).
  rewrite Forall_forall in H.
  rewrite (clean_row_not_str (H r Hin)) in E. discriminate.
Qed.

(** On a non-empty cleaned frame [calculate_metrics] returns, and writes
    what it returns. *)
Lemma customer_metrics_written (df : DataFrame) (store : Store) :
  Forall (row_clean strptime) df -> df <> [] ->
  exists m,
    calculate_metrics df store = (Some m, Ok m)
    /\ Active_Customers m = active_customers df
    /\ Buying_Frequency m
       = Fin (Qnat (List.length df) / Qnat (active_customers df))
    /\ Total_Revenue m = Fin (total_revenue df)
    /\ Retention_Rate m = retention_rate df
    /\ Churn_Rate m = churn_rate df
    /\ High_Value_Cutoff m = high_cutoff (segment_customers df)
    /\ High_Value_Count m = high_value_count (segment_customers df)
    /\ Medium_Value_Count m = med_value_count (segment_customers df)
    /\ Low_Value_Count m = low_value_count (segment_customers df).
Proof.
  intros H Hne.
  pose proof (customers_nonempty H Hne) as Hact.
  unfold calculate_metrics, bind, lift, write, ret.
  rewrite (check_dates_clean H).
  unfold py_divide.
  destruct (active_customers df) as [|n] eqn:E; [lia|].
  eexists. split; [reflexivity|]. simpl.
  repeat split; reflexivity.
Qed.
End CustomerLoader.

(** ** The loaders run twice *)

(** C7, as amended.  The row-dropping steps of each loader, run twice on
    any frame, drop nothing the first run kept.  The campaign loader
    returns a cleaned frame unchanged.
    The customer loader, run on a frame it has cleaned, does what
    [drop_duplicates] alone does: it returns the frame unchanged when no
    two of its rows are equal, and otherwise drops the later copies (rows
    that differed only in how a date was written are equal once the dates
    are parsed). *)
Theorem loaders_run_twice (strptime : string -> option Z) :
  (forall df,
      Campaigns.drop_steps (Campaigns.drop_steps df) = Campaigns.drop_steps df)
  /\ (forall df,
         Customers.drop_steps (Customers.drop_steps df)
         = Customers.drop_steps df)
  /\ (forall raw df,
      Campaigns.load_and_clean_data strptime raw = Ok df ->
      Campaigns.load_and_clean_data strptime df = Ok df)
  /\ (forall raw df,
         Customers.load_and_clean_data strptime raw = Ok df ->
         Customers.load_and_clean_data strptime df
         = Ok (Customers.drop_duplicates df))
  /\ (forall raw df,
         Customers.load_and_clean_data strptime raw = Ok df ->
         Customers.distinct_rows df ->
         Customers.load_and_clean_data strptime df = Ok df).
Proof.
  split; [exact campaign_drop_steps_twice|].
  split; [exact customer_drop_steps_twice|].
  repeat split; intros raw df H.
  - apply campaign_loader_fixpoint, (campaign_cleaned_rows _ _ H).
  - apply customer_loader_again, (customer_cleaned_rows _ _ H).
  - intro Hd.
    rewrite (customer_loader_again (customer_cleaned_rows _ _ H)).
    now rewrite (drop_duplicates_distinct Hd).
Qed.

Lemma loaders_run_twice_witness :
  Campaigns.load_and_clean_data strptime_mdY
    (Examples.parsed Examples.one_campaign)
  = Ok (Examples.parsed Examples.one_campaign)
  /\ Customers.load_and_clean_data strptime_mdY
       (Examples.loaded Examples.respelled)
     = Ok (Customers.drop_duplicates (Examples.loaded Examples.respelled))
  /\ Customers.load_and_clean_data strptime_mdY
       (Examples.loaded Examples.trio)
     = Ok (Examples.loaded Examples.trio).
Proof.
  destruct (loaders_run_twice strptime_mdY) as (_ & _ & H1 & H2 & H3).
  split; [|split].
  - apply (H1 Examples.one_campaign). reflexivity.
  - apply (H2 Examples.respelled). reflexivity.
  - apply (H3 Examples.trio); [reflexivity|].
    repeat constructor.
Defined.

(** C7 as stated fails for the customer loader: two rows that spell one day
    as [1/2/2024] and [01/02/2024] both survive the first run, are equal
    after it, and the second run drops one of them. *)
Lemma customer_loader_not_idempotent :
  Customers.load_and_clean_data strptime_mdY Examples.respelled
  = Ok (Examples.loaded Examples.respelled)
  /\ List.length (Examples.loaded Examples.respelled) = 2%nat
  /\ (exists df,
         Customers.load_and_clean_data strptime_mdY
           (Examples.loaded Examples.respelled) = Ok df
         /\ List.length df = 1%nat)
  /\ Customers.load_and_clean_data strptime_mdY
       (Examples.loaded Examples.respelled)
     <> Ok (Examples.loaded Examples.respelled).
Proof.
  split; [reflexivity|]. split; [reflexivity|]. split.
  - eexists. split; reflexivity.
  - discriminate.
Qed.

(** ** Customers: rates *)

Lemma Qnat_pos (n : nat) : (0 < n)%nat -> 0 < Qnat n.
Proof.
  intro H. unfold Qnat, Qlt. simpl. lia.
Qed.

Lemma Qnat_lt (n m : nat) : (n < m)%nat -> Qnat n < Qnat m.
Proof.
  intro H. unfold Qnat, Qlt. simpl. lia.
Qed.

(** A rate [count / active * 100] with at least one active customer. *)
Lemma rate_finite (n a : nat) :
  (0 < a)%nat ->
  exists q, times100 (np_divide (Qnat n) (Qnat a)) = Fin q
            /\ q == 100 * Qnat n / Qnat a.
Proof.
  intro H. apply Qnat_pos in H.
  rewrite np_divide_finite by lra. simpl.
  eexists. split; [reflexivity|]. field. lra.
Qed.

(** C8.  On a non-empty cleaned customer frame [calculate_metrics] stores
    as Retention Rate the number 100 * (customers with more than one
    order) / (distinct customers).  With three customers whose order counts
    are 1, 2 and 3 that number is 200/3: the stored value is not rounded to
    66.67. *)
Theorem retention_rate_stored (strptime : string -> option Z)
  (df : Customers.DataFrame) (store : Customers.Store) :
  Customers.cleaned strptime df ->
  df <> [] ->
  exists m q,
    Customers.calculate_metrics df store = (Some m, Ok m)
    /\ Customers.Retention_Rate m = Fin q
    /\ q == 100
            * Qnat (List.length
                      (filter (fun k => (1 <? Customers.order_count df k)%nat)
                              (Customers.customers df)))
            / Qnat (List.length (Customers.customers df))
    /\ (Permutation (map (Customers.order_count df) (Customers.customers df))
                    [1; 2; 3]%nat ->
        q == 200 # 3 /\ ~ q == 6667 # 100).
Proof.
  intros [raw Hraw] Hne.
  pose proof (customer_cleaned_rows _ _ Hraw) as Hclean.
  destruct (customer_metrics_written store Hclean Hne)
    as (m & Hm & _ & _ & _ & Hret & _).
  pose proof (customers_nonempty Hclean Hne) as Hact.
  destruct (rate_finite (Customers.retained_customers df) Hact)
    as (q & Hq & E).
  exists m, q. split; [exact Hm|]. split.
  - rewrite Hret. exact Hq.
  - rewrite retained_customers_spec, active_customers_spec in E.
    split; [exact E|].
    intro Hperm.
    assert (Hlen : List.length (Customers.customers df) = 3%nat).
    { rewrite <- (length_map (Customers.order_count df)).
      now rewrite (Permutation_length Hperm). }
    assert (Hkept :
              List.length
                (filter (fun k => (1 <? Customers.order_count df k)%nat)
                        (Customers.customers df)) = 2%nat).
    { rewrite <- (count_map (Customers.order_count df)
                            (fun n => (1 <? n)%nat)).
      now rewrite (count_perm _ Hperm). }
    rewrite Hlen, Hkept in E. rewrite E.
    split; [reflexivity | discriminate].
Qed.

Lemma retention_rate_stored_witness :
  exists m q,
    Customers.calculate_metrics (Examples.loaded Examples.trio) None
    = (Some m, Ok m)
    /\ Customers.Retention_Rate m = Fin q
    /\ q == 200 # 3.
Proof.
  destruct (@retention_rate_stored strptime_mdY
              (Examples.loaded Examples.trio) None)
    as (m & q & Hm & Hq & _ & H3).
  - exists Examples.trio. reflexivity.
  - discriminate.
  - exists m, q. split; [exact Hm|]. split; [exact Hq|].
    apply H3. vm_compute. apply perm_swap.
Defined.

(** ** Customers: dates *)

Section CustomerDates.
Import Customers.
Open Scope Z_scope.

(** The fold of [later] returns the greatest timestamp met, if any. *)
Lemma latest_spec (ts : list (option Z)) (acc : option Z) :
  match fold_left later ts acc with
  | Some m =>
      (acc = Some m \/ In (Some m) ts)
      /\ (forall t, acc = Some t \/ In (Some t) ts -> t <= m)
  | None => acc = None /\ forall t, ~ In (Some t) ts
  end.
Proof.
  revert acc. induction ts as [|x ts IH]; intro acc; simpl.
  - destruct acc as [a|].
    + split; [now left|]. intros t [E | []]. injection E as ->. lia.
    + split; [reflexivity | auto].
  - specialize (IH (later acc x)).
    destruct (fold_left later ts (later acc x)) as [m|].
    + destruct IH as [Hin Hle]. split.
      * destruct Hin as [E | Hin]; [|tauto].
        destruct acc as [a|], x as [b|]; simpl in E; try tauto.
        injection E as <-.
        destruct (Z.max_spec a b) as [[_ ->] | [_ ->]]; tauto.
      * intros t [E | [E | Ht]].
        -- subst acc. destruct x as [b|]; simpl in Hle.
           ++ specialize (Hle (Z.max t b) (or_introl eq_refl)). lia.
           ++ apply Hle. now left.
        -- subst x. destruct acc as [a|]; simpl in Hle.
           ++ specialize (Hle (Z.max a t) (or_introl eq_refl)). lia.
           ++ apply Hle. now left.
        -- apply Hle. now right.
    + destruct IH as [E Hno].
      destruct acc as [a|], x as [b|]; simpl in E; try discriminate.
      split; [reflexivity|]. intros t [F | Hin]; [discriminate|].
      exact (Hno t Hin).
Qed.

(** [current_date] is the greatest order date of the frame. *)
Lemma current_date_spec (df : DataFrame) (c : Z) :
  current_date df = Some c ->
  In (Some c) (order_times df)
  /\ forall t, In (Some t) (order_times df) -> t <= c.
Proof.
  intro H. pose proof (latest_spec (order_times df) None) as S.
  unfold current_date in H. fold (order_times df) in H. rewrite H in S.
  destruct S as [[E | Hin] Hle]; [discriminate|].
  split; [exact Hin|]. intros t Ht. apply Hle. now right.
Qed.

Lemma last_order_spec (df : DataFrame) (k : string) (l : Z) :
  last_order_of df k = Some l ->
  In (Some l) (order_times (orders_of k df))
  /\ forall t, In (Some t) (order_times (orders_of k df)) -> t <= l.
Proof.
  intro H.
  pose proof (latest_spec (order_times (orders_of k df)) None) as S.
  unfold last_order_of in H. fold (order_times (orders_of k df)) in H.
  rewrite H in S.
  destruct S as [[E | Hin] Hle]; [discriminate|].
  split; [exact Hin|]. intros t Ht. apply Hle. now right.
Qed.

Lemma order_times_of (df : DataFrame) (k : string) (t : option Z) :
  In t (order_times (orders_of k df)) -> In t (order_times df).
Proof.
  unfold order_times, orders_of. rewrite !in_map_iff.
  intros (r & E & Hin). apply filter_In in Hin. exists r. tauto.
Qed.

Lemma some_date_some_latest (ts : list (option Z)) (t : Z) :
  In (Some t) ts -> exists m, fold_left later ts None = Some m.
Proof.
  intro Hin. pose proof (latest_spec ts None) as S.
  destruct (fold_left later ts None) as [m|].
  - now exists m.
  - destruct S as [_ Hno]. destruct (Hno t Hin).
Qed.

(** A customer's last order is never after the current date. *)
Lemma last_before_current (df : DataFrame) (k : string) (l : Z) :
  last_order_of df k = Some l ->
  exists c, current_date df = Some c /\ l <= c.
Proof.
  intro H. apply last_order_spec in H. destruct H as [Hin _].
  apply order_times_of in Hin.
  destruct (some_date_some_latest _ _ Hin) as (c & Hc).
  exists c. split; [exact Hc|].
  apply (current_date_spec _ Hc). exact Hin.
Qed.

(** Some customer placed the latest order. *)
Lemma latest_customer (strptime : string -> option Z) (df : DataFrame)
  (c : Z) :
  Forall (row_clean strptime) df ->
  current_date df = Some c ->
  exists k, In k (customers df) /\ last_order_of df k = Some c.
Proof.
  intros Hclean Hc.
  destruct (current_date_spec _ Hc) as [Hin Hmax].
  unfold order_times in Hin. apply in_map_iff in Hin.
  destruct Hin as (r & Hr & Hrow).
  rewrite Forall_forall in Hclean.
  destruct (clean_row_has_customer (Hclean r Hrow)) as (k & Hk).
  exists k. split; [apply customer_In with (r := r); assumption|].
  assert (Hmine : In (Some c) (order_times (orders_of k df))).
  { unfold order_times. apply in_map_iff. exists r. split; [exact Hr|].
    apply filter_In. split; [exact Hrow|].
    unfold is_customer. rewrite Hk. apply String.eqb_refl. }
  destruct (some_date_some_latest _ _ Hmine) as (l & Hl).
  change (last_order_of df k = Some l) in Hl.
  destruct (last_order_spec _ _ Hl) as [Hl_in Hl_max].
  apply order_times_of in Hl_in.
  specialize (Hmax l Hl_in). specialize (Hl_max c Hmine).
  rewrite Hl. f_equal. lia.
Qed.

Lemma days_0 : days 0 = 0.
Proof. reflexivity. Qed.

Lemma inactive_days_same (c : Z) :
  inactive_days (Some c) (Some c) = Some 0.
Proof. unfold inactive_days. now rewrite Z.sub_diag, days_0. Qed.

(** On a non-empty cleaned frame some customer is not churned. *)
Lemma someone_is_active (strptime : string -> option Z) (df : DataFrame) :
  Forall (row_clean strptime) df -> df <> [] ->
  exists k, In k (customers df) /\ churned df k = false.
Proof.
  intros Hclean Hne. unfold churned.
  destruct (current_date df) as [c|] eqn:Hc.
  - destruct (latest_customer Hclean Hc) as (k & Hk & Hl).
    exists k. split; [exact Hk|].
    now rewrite Hl, inactive_days_same.
  - pose proof (customers_nonempty Hclean Hne) as Hact.
    rewrite active_customers_spec in Hact.
    destruct (customers df) as [|k ks]; [simpl in Hact; lia|].
    exists k. split; [now left | reflexivity].
Qed.
End CustomerDates.

Lemma filter_drops_one {A : Type} (p : A -> bool) (l : list A) (x : A) :
  In x l -> p x = false ->
  (List.length (filter p l) < List.length l)%nat.
Proof.
  induction l as [|y l IH]; simpl; intros Hin Hx.
  - contradiction.
  - pose proof (filter_length_le p l) as Hle.
    destruct Hin as [-> | Hin].
    + rewrite Hx. lia.
    + specialize (IH Hin Hx). destruct (p y); simpl; lia.
Qed.


(** ** Customers: churn *)

(** C10.  On a non-empty cleaned customer frame, a customer whose last
    order is the latest order of the frame has been inactive for 0 days and
    is not churned; when the frame holds a date at all there is such a
    customer; so fewer customers are churned than there are customers, and
    the stored Churn Rate is a number below 100. *)
Theorem churn_rate_below_100 (strptime : string -> option Z)
  (df : Customers.DataFrame) (store : Customers.Store) :
  Customers.cleaned strptime df ->
  df <> [] ->
  (forall k c,
      Customers.current_date df = Some c ->
      Customers.last_order_of df k = Some c ->
      Customers.inactive_days (Customers.current_date df)
                              (Customers.last_order_of df k) = Some 0%Z
      /\ Customers.churned df k = false)
  /\ (forall c,
         Customers.current_date df = Some c ->
         exists k, In k (Customers.customers df)
                   /\ Customers.last_order_of df k = Some c)
  /\ (Customers.churned_customers df + 1 <= Customers.active_customers df)%nat
  /\ exists m q,
      Customers.calculate_metrics df store = (Some m, Ok m)
      /\ Customers.Churn_Rate m = Fin q
      /\ q < 100.
Proof.
  intros [raw Hraw] Hne.
  pose proof (customer_cleaned_rows _ _ Hraw) as Hclean.
  assert (Hlt : (Customers.churned_customers df
                 < Customers.active_customers df)%nat).
  { destruct (someone_is_active Hclean Hne) as (k & Hk & Hact).
    rewrite churned_customers_spec, active_customers_spec.
    apply filter_drops_one with (x := k); assumption. }
  split; [|split; [|split]].
  - intros k c Hc Hl. unfold Customers.churned.
    rewrite Hc, Hl, inactive_days_same. split; reflexivity.
  - intros c Hc. apply (latest_customer Hclean Hc).
  - lia.
  - destruct (customer_metrics_written store Hclean Hne)
      as (m & Hm & _ & _ & _ & _ & Hchurn & _).
    assert (Hact : (0 < Customers.active_customers df)%nat) by lia.
    destruct (rate_finite (Customers.churned_customers df) Hact)
      as (q & Hq & E).
    exists m, q. split; [exact Hm|]. split.
    + rewrite Hchurn. exact Hq.
    + rewrite E. apply Qnat_lt in Hlt. apply Qnat_pos in Hact.
      unfold Qdiv. rewrite <- Qmult_assoc.
      assert (H1 : Qnat (Customers.churned_customers df)
                   / Qnat (Customers.active_customers df) < 1).
      { apply Qlt_shift_div_r; [assumption | lra]. }
      unfold Qdiv in H1. lra.
Qed.

Lemma churn_rate_below_100_witness :
  (Customers.churned_customers (Examples.loaded Examples.pair) + 1
   <= Customers.active_customers (Examples.loaded Examples.pair))%nat
  /\ exists m q,
      Customers.calculate_metrics (Examples.loaded Examples.pair) None
      = (Some m, Ok m)
      /\ Customers.Churn_Rate m = Fin q
      /\ q < 100.
Proof.
  destruct (@churn_rate_below_100 strptime_mdY
              (Examples.loaded Examples.pair) None)
    as (_ & _ & H & Hm).
  - exists Examples.pair. reflexivity.
  - discriminate.
  - split; assumption.
Defined.




(** ** Customers: quantiles *)

Section Quantiles.
Import Customers.

Lemma insert_sorted_perm (x : Q) (l : list Q) :
  Permutation (insert_sorted x l) (x :: l).
Proof.
  induction l as [|y l IH]; simpl.
  - reflexivity.
  - destruct (Qle_bool x y).
    + reflexivity.
    + rewrite IH. apply perm_swap.
Qed.

Lemma sort_values_perm (l : list Q) : Permutation (sort_values l) l.
Proof.
  induction l as [|x l IH]; simpl.
  - reflexivity.
  - rewrite insert_sorted_perm. now constructor.
Qed.

Lemma sort_values_length (l : list Q) :
  List.length (sort_values l) = List.length l.
Proof. apply Permutation_length, sort_values_perm. Qed.

Lemma insert_sorted_sorted (x : Q) (l : list Q) :
  StronglySorted Qle l -> StronglySorted Qle (insert_sorted x l).
Proof.
  induction 1 as [|y l Hl IH Hy]; simpl.
  - repeat constructor.
  - destruct (Qle_bool x y) eqn:E.
    + apply Qle_bool_iff in E. constructor.
      * now constructor.
      * constructor; [exact E|].
        eapply Forall_impl; [|exact Hy].
        intros z Hz. now apply Qle_trans with y.
    + constructor; [exact IH|].
      apply (Permutation_Forall (Permutation_sym (insert_sorted_perm x l))).
      constructor; [|exact Hy].
      apply Qlt_le_weak, Qltb_lt. unfold Qltb. now rewrite E.
Qed.

Lemma sort_values_sorted (l : list Q) : StronglySorted Qle (sort_values l).
Proof.
  induction l as [|x l IH]; simpl.
  - constructor.
  - now apply insert_sorted_sorted.
Qed.

Lemma sorted_nth (l : list Q) (i j : nat) :
  StronglySorted Qle l ->
  (i <= j)%nat -> (j < List.length l)%nat ->
  nth i l 0 <= nth j l 0.
Proof.
  intro H. revert i j.
  induction H as [|x l Hl IH Hx]; intros i j Hij Hj; simpl in Hj.
  - lia.
  - destruct i as [|i], j as [|j]; simpl.
    + apply Qle_refl.
    + rewrite Forall_forall in Hx. apply Hx, nth_In. lia.
    + lia.
    + apply IH; lia.
Qed.


(** Where a rank between 0 and [n - 1] falls. *)
Lemma rank_bracket (n : nat) (rank : Q) :
  (0 < n)%nat ->
  0 <= rank -> rank <= inject_Z (Z.of_nat n - 1) ->
  (0 <= Qfloor rank)%Z
  /\ (Qfloor rank <= Z.of_nat n - 1)%Z
  /\ 0 <= rank - inject_Z (Qfloor rank)
  /\ rank - inject_Z (Qfloor rank) <= 1.
Proof.
  intros Hn H0 H1.
  pose proof (Qfloor_le rank) as Hfl.
  pose proof (Qlt_floor rank) as Hlt.
  rewrite inject_Z_plus in Hlt.
  repeat split.
  - change 0%Z with (Qfloor 0). now apply Qfloor_resp_le.
  - rewrite <- (Qfloor_Z (Z.of_nat n - 1)). now apply Qfloor_resp_le.
  - lra.
  - change (inject_Z 1) with 1 in Hlt. lra.
Qed.

Lemma interpolate_bracket (s : list Q) (rank : Q) :
  StronglySorted Qle s ->
  (0 < List.length s)%nat ->
  0 <= rank -> rank <= inject_Z (Z.of_nat (List.length s) - 1) ->
  nth (Z.to_nat (Qfloor rank)) s 0 <= interpolate s rank
  /\ interpolate s rank
     <= nth (Z.to_nat (Z.min (Qfloor rank + 1)
                             (Z.of_nat (List.length s) - 1))) s 0.
Proof.
  intros Hs Hn H0 H1.
  destruct (rank_bracket Hn H0 H1) as (Hlo0 & Hlo1 & Hf0 & Hf1).
  unfold interpolate.
  set (lo := Qfloor rank) in *.
  set (hi := Z.min (lo + 1) (Z.of_nat (List.length s) - 1)).
  assert (Hab : nth (Z.to_nat lo) s 0 <= nth (Z.to_nat hi) s 0).
  { apply sorted_nth; [assumption | lia | lia]. }
  set (a := nth (Z.to_nat lo) s 0) in *.
  set (b := nth (Z.to_nat hi) s 0) in *.
  set (f := rank - inject_Z lo) in *.
  split; nra.
Qed.

(** The interpolated value grows with the rank. *)
Lemma interpolate_mono (s : list Q) (r1 r2 : Q) :
  StronglySorted Qle s ->
  (0 < List.length s)%nat ->
  0 <= r1 -> r1 <= r2 -> r2 <= inject_Z (Z.of_nat (List.length s) - 1) ->
  interpolate s r1 <= interpolate s r2.
Proof.
  intros Hs Hn H0 H12 H2.
  assert (H1 : r1 <= inject_Z (Z.of_nat (List.length s) - 1)) by lra.
  assert (H0' : 0 <= r2) by lra.
  destruct (rank_bracket Hn H0 H1) as (Ha0 & Ha1 & Hfa0 & Hfa1).
  destruct (rank_bracket Hn H0' H2) as (Hb0 & Hb1 & Hfb0 & Hfb1).
  pose proof (Qfloor_resp_le _ _ H12) as Hfl.
  destruct (Z.eq_dec (Qfloor r1) (Qfloor r2)) as [E | Hne].
  - unfold interpolate. rewrite <- E in *.
    set (lo := Qfloor r1) in *.
    set (hi := Z.min (lo + 1) (Z.of_nat (List.length s) - 1)).
    assert (Hab : nth (Z.to_nat lo) s 0 <= nth (Z.to_nat hi) s 0).
    { apply sorted_nth; [assumption | lia | lia]. }
    set (a := nth (Z.to_nat lo) s 0) in *.
    set (b := nth (Z.to_nat hi) s 0) in *.
    nra.
  - destruct (interpolate_bracket Hs Hn H0 H1) as [_ Hup].
    destruct (interpolate_bracket Hs Hn H0' H2) as [Hdown _].
    eapply Qle_trans; [exact Hup|].
    eapply Qle_trans; [|exact Hdown].
    apply sorted_nth; [assumption | lia | lia].
Qed.


Lemma rank_of_range (q : Q) (n : nat) :
  (0 < n)%nat -> 0 <= q -> q <= 1 ->
  0 <= rank_of q n /\ rank_of q n <= inject_Z (Z.of_nat n - 1).
Proof.
  intros Hn H0 H1. unfold rank_of.
  assert (H : 0 <= inject_Z (Z.of_nat n - 1)).
  { change 0 with (inject_Z 0). rewrite <- Zle_Qle. lia. }
  split; nra.
Qed.

Lemma quantile_nonempty (values : list Q) (q : Q) :
  values <> [] ->
  quantile values q
  = Fin (interpolate (sort_values values)
                     (rank_of q (List.length (sort_values values)))).
Proof. destruct values; [contradiction | reflexivity]. Qed.
End Quantiles.

(** ** Customers: segments *)

Section SegmentFacts.
Import Customers.



(** Three tests of which each element passes exactly one split a list. *)
Lemma count_partition {A : Type} (p1 p2 p3 : A -> bool) (l : list A) :
  Forall (fun x => (Nat.b2n (p1 x) + Nat.b2n (p2 x) + Nat.b2n (p3 x)
                    = 1)%nat) l ->
  (count p1 l + count p2 l + count p3 l = List.length l)%nat.
Proof.
  unfold count. induction 1 as [|x l Hx _ IH]; simpl.
  - reflexivity.
  - destruct (p1 x), (p2 x), (p3 x); simpl in *; lia.
Qed.

Lemma lt_cutoff_Fin (x c : Q) : lt_cutoff x (Fin c) = negb (Qle_bool c x).
Proof. reflexivity. Qed.

(** With the medium cut-off not above the high one, a revenue passes
    exactly one of the three segment tests. *)
Lemma one_segment (h m x : Q) :
  m <= h ->
  (Nat.b2n (ge_cutoff x (Fin h))
   + Nat.b2n (lt_cutoff x (Fin h) && ge_cutoff x (Fin m))
   + Nat.b2n (lt_cutoff x (Fin m)) = 1)%nat.
Proof.
  intro Hmh. rewrite !lt_cutoff_Fin. simpl.
  destruct (Qle_bool h x) eqn:Eh, (Qle_bool m x) eqn:Em; simpl;
    try reflexivity.
  exfalso. apply Qle_bool_iff in Eh.
  assert (Hmx : m <= x) by lra.
  apply Qle_bool_iff in Hmx. congruence.
Qed.

Lemma revenue_values_length (df : DataFrame) :
  List.length (map snd (customer_revenue df))
  = List.length (customers df).
Proof.
  rewrite (Permutation_length (revenue_values_spec df)).
  apply length_map.
Qed.

Lemma revenue_values_nonempty (df : DataFrame) :
  (0 < active_customers df)%nat -> map snd (customer_revenue df) <> [].
Proof.
  rewrite active_customers_spec, <- revenue_values_length.
  destruct (map snd (customer_revenue df)); simpl; [lia | discriminate].
Qed.

(** The two cut-offs of a frame with at least one customer are numbers,
    the medium one not above the high one. *)
Lemma cutoffs_ordered (df : DataFrame) :
  (0 < active_customers df)%nat ->
  exists h m,
    high_cutoff (segment_customers df) = Fin h
    /\ med_cutoff (segment_customers df) = Fin m
    /\ m <= h.
Proof.
  intro Hact.
  pose proof (revenue_values_nonempty df Hact) as Hne.
  unfold segment_customers. simpl.
  rewrite !(quantile_nonempty _ Hne).
  set (s := sort_values (map snd (customer_revenue df))).
  assert (Hn : (0 < List.length s)%nat).
  { unfold s. rewrite sort_values_length, revenue_values_length.
    now rewrite <- active_customers_spec. }
  do 2 eexists. split; [reflexivity|]. split; [reflexivity|].
  assert (H8 : 0 <= 8 # 10 /\ 8 # 10 <= 1) by (split; discriminate).
  assert (H5 : 0 <= 5 # 10 /\ 5 # 10 <= 1) by (split; discriminate).
  destruct (rank_of_range Hn (proj1 H8) (proj2 H8)) as [_ Hhi].
  destruct (rank_of_range Hn (proj1 H5) (proj2 H5)) as [Hlo _].
  apply interpolate_mono; try assumption.
  - apply sort_values_sorted.
  - unfold rank_of.
    assert (H : 0 <= inject_Z (Z.of_nat (List.length s) - 1)).
    { change 0 with (inject_Z 0). rewrite <- Zle_Qle. lia. }
    nra.
Qed.


End SegmentFacts.



(** C9.  On a non-empty cleaned customer frame the medium cut-off is not
    above the high one, so every revenue passes exactly one of the three
    segment tests, and the three counts add up to the number of distinct
    customers, in the segmentation and in the stored record. *)
Theorem segments_partition (strptime : string -> option Z)
  (df : Customers.DataFrame) (store : Customers.Store) :
  Customers.cleaned strptime df ->
  df <> [] ->
  (forall x : Q,
      (Customers.in_high (Customers.segment_customers df) x
       + Customers.in_medium (Customers.segment_customers df) x
       + Customers.in_low (Customers.segment_customers df) x = 1)%nat)
  /\ (Customers.high_value_count (Customers.segment_customers df)
      + Customers.med_value_count (Customers.segment_customers df)
      + Customers.low_value_count (Customers.segment_customers df)
      = Customers.active_customers df)%nat
  /\ exists m,
      Customers.calculate_metrics df store = (Some m, Ok m)
      /\ (Customers.High_Value_Count m + Customers.Medium_Value_Count m
          + Customers.Low_Value_Count m
          = Customers.Active_Customers m)%nat.
Proof.
  intros [raw Hraw] Hne.
  pose proof (customer_cleaned_rows _ _ Hraw) as Hclean.
  pose proof (customers_nonempty Hclean Hne) as Hact.
  destruct (customer_metrics_written store Hclean Hne)
    as (m & Hm & Hactive & _ & _ & _ & _ & _ & Hhigh & Hmed & Hlow).
  destruct (cutoffs_ordered df Hact) as (h & md & Hh & Hmd & Hle).
  assert (Hone : forall x : Q,
             (Customers.in_high (Customers.segment_customers df) x
              + Customers.in_medium (Customers.segment_customers df) x
              + Customers.in_low (Customers.segment_customers df) x
              = 1)%nat).
  { intro x. unfold Customers.in_high, Customers.in_medium, Customers.in_low.
    rewrite Hh, Hmd. now apply one_segment. }
  assert (Hsum : (Customers.high_value_count (Customers.segment_customers df)
                  + Customers.med_value_count
                      (Customers.segment_customers df)
                  + Customers.low_value_count
                      (Customers.segment_customers df)
                  = Customers.active_customers df)%nat).
  { rewrite active_customers_spec, <- revenue_values_length.
    unfold Customers.segment_customers in *. simpl in *.
    apply count_partition. rewrite Forall_forall. intros x _.
    apply (Hone x). }
  split; [exact Hone|]. split; [exact Hsum|].
  exists m. split; [exact Hm|].
  now rewrite Hhigh, Hmed, Hlow, Hactive.
Qed.

Lemma segments_partition_witness :
  exists m,
    Customers.calculate_metrics (Examples.loaded Examples.trio) None
    = (Some m, Ok m)
    /\ (Customers.High_Value_Count m + Customers.Medium_Value_Count m
        + Customers.Low_Value_Count m
        = Customers.Active_Customers m)%nat.
Proof.
  destruct (@segments_partition strptime_mdY
              (Examples.loaded Examples.trio) None) as (_ & _ & H).
  - exists Examples.trio. reflexivity.
  - discriminate.
  - exact H.
Defined.

(** * Further properties of the scripts *)

(** ** What [mapM] returns *)

Lemma mapM_Forall2 {A B : Type} (f : A -> result B) :
  forall l l', mapM f l = Ok l' -> Forall2 (fun x y => f x = Ok y) l l'.
Proof.
  induction l as [|x l IH]; intros l' H; simpl in H.
  - injection H as <-. constructor.
  - destruct (f x) as [y|e] eqn:Ex; simpl in H; [|discriminate].
    destruct (mapM f l) as [ys|e]; simpl in H; [|discriminate].
    injection H as <-. constructor; [exact Ex | now apply IH].
Qed.

Lemma mapM_Raise {A B : Type} (f : A -> result B) :
  forall l e, mapM f l = Raise e -> exists x, In x l /\ f x = Raise e.
Proof.
  induction l as [|x l IH]; intros e H; simpl in H.
  - discriminate.
  - destruct (f x) as [y|e'] eqn:Ex; simpl in H.
    + destruct (mapM f l) as [ys|e'] eqn:El; simpl in H; [discriminate|].
      injection H as <-. destruct (IH e' eq_refl) as (x' & Hin & Hx').
      exists x'. split; [now right | exact Hx'].
    + injection H as <-. exists x. split; [now left | exact Ex].
Qed.

Lemma Forall2_In_l {A B : Type} (R : A -> B -> Prop) (l : list A)
  (l' : list B) (x : A) :
  Forall2 R l l' -> In x l -> exists y, In y l' /\ R x y.
Proof.
  induction 1 as [|a b l l' Hab _ IH]; simpl; intros Hin.
  - contradiction.
  - destruct Hin as [-> | Hin].
    + exists b. split; [now left | exact Hab].
    + destruct (IH Hin) as (y & Hy & Hr). exists y. split; [now right|].
      exact Hr.
Qed.

Lemma to_datetime_raises (strptime : string -> option Z) (c : date_cell)
  (e : error) :
  to_datetime strptime c = Raise e <-> e = DateParseError /\ bad_date strptime c.
Proof.
  unfold bad_date. destruct c as [s|t|]; simpl.
  - destruct (strptime s) as [t|] eqn:E.
    + split; [discriminate|]. intros (_ & s' & Hs & Hn).
      injection Hs as <-. congruence.
    + split.
      * intro H. injection H as <-. split; [reflexivity|]. now exists s.
      * intros (-> & _). reflexivity.
  - split; [discriminate|]. intros (_ & s & Hs & _). discriminate.
  - split; [discriminate|]. intros (_ & s & Hs & _). discriminate.
Qed.

Lemma to_datetime_parsed_date (strptime : string -> option Z)
  (c d : date_cell) :
  to_datetime strptime c = Ok d -> parsed_date d.
Proof.
  destruct c as [s|t|]; simpl.
  - destruct (strptime s); [|discriminate]. now injection 1 as <-.
  - now injection 1 as <-.
  - now injection 1 as <-.
Qed.

Lemma filter_length_incl {A : Type} (p : A -> bool) (l : list A) :
  (List.length (filter p l) <= List.length l)%nat.
Proof. apply filter_length_le. Qed.

(** ** The campaign loader *)

(** X1.  The campaign loader returns, in their order, exactly the rows
    that have Clicks and Spend and a positive Spend; it changes nothing in
    them but the date, which it parses; so every row it returns has its
    Clicks, a positive Spend and no date text left, and it never returns
    more rows than it was given. *)
Theorem campaign_loader_output (strptime : string -> option Z)
  (raw df : Campaigns.DataFrame) :
  Campaigns.load_and_clean_data strptime raw = Ok df ->
  Forall2 (fun r r' =>
             campaign_fields r' = campaign_fields r
             /\ to_datetime strptime (Campaigns.Date r)
                = Ok (Campaigns.Date r'))
          (Campaigns.drop_steps raw) df
  /\ Forall (fun r =>
               (exists c, Campaigns.Clicks r = Some c)
               /\ (exists s, Campaigns.Spend r = Some s /\ 0 < s)
               /\ parsed_date (Campaigns.Date r)) df
  /\ (List.length df <= List.length raw)%nat.
Proof.
  intro H.
  assert (H2 : Forall2 (fun r r' =>
             campaign_fields r' = campaign_fields r
             /\ to_datetime strptime (Campaigns.Date r)
                = Ok (Campaigns.Date r'))
          (Campaigns.drop_steps raw) df).
  { rewrite campaign_loader_steps in H. apply mapM_Forall2 in H.
    eapply Forall2_impl; [|exact H].
    intros r r' Hr. simpl in Hr.
    destruct (to_datetime strptime (Campaigns.Date r)) as [d|e];
      simpl in Hr; [|discriminate].
    injection Hr as <-. split; reflexivity. }
  split; [exact H2|]. split.
  - pose proof (campaign_cleaned_rows _ _ H) as Hc.
    eapply Forall_impl; [|exact Hc].
    intros r (H1 & Hs & Hd).
    apply andb_true_iff in H1. destruct H1 as [Hcl _].
    split; [|split].
    + destruct (Campaigns.Clicks r) as [c|]; [now exists c | discriminate].
    + destruct (Campaigns.Spend r) as [s|]; [|discriminate].
      exists s. split; [reflexivity|]. now apply Qltb_lt.
    + apply (to_datetime_parsed_date _ _ Hd).
  - rewrite <- (Forall2_length H2). unfold Campaigns.drop_steps.
    etransitivity; [apply filter_length_le|]. apply filter_length_le.
Qed.

Lemma campaign_loader_output_witness :
  List.length (Examples.parsed Examples.one_campaign) = 2%nat
  /\ Forall (fun r =>
               (exists c, Campaigns.Clicks r = Some c)
               /\ (exists s, Campaigns.Spend r = Some s /\ 0 < s)
               /\ parsed_date (Campaigns.Date r))
            (Examples.parsed Examples.one_campaign).
Proof.
  split; [reflexivity|].
  exact (proj1 (proj2 (@campaign_loader_output strptime_mdY
                         Examples.one_campaign
                         (Examples.parsed Examples.one_campaign)
                         eq_refl))).
Defined.

(** X2.  The campaign loader raises exactly when a row it keeps holds date
    text that cannot be parsed, and then it raises [DateParseError]; an
    unparseable date in a row that is dropped for its Clicks or Spend does
    not raise. *)
Theorem campaign_loader_error (strptime : string -> option Z)
  (raw : Campaigns.DataFrame) (e : error) :
  Campaigns.load_and_clean_data strptime raw = Raise e
  <-> e = DateParseError
      /\ exists r, In r (Campaigns.drop_steps raw)
                   /\ bad_date strptime (Campaigns.Date r).
Proof.
  rewrite campaign_loader_steps. split.
  - intro H. apply mapM_Raise in H. destruct H as (r & Hin & Hr).
    destruct (to_datetime strptime (Campaigns.Date r)) as [d|e'] eqn:Ed;
      simpl in Hr; [discriminate|].
    injection Hr as <-. apply to_datetime_raises in Ed.
    destruct Ed as [-> Hbad]. split; [reflexivity|]. now exists r.
  - intros (-> & r & Hin & Hbad).
    destruct (mapM _ (Campaigns.drop_steps raw)) as [l'|e'] eqn:El.
    + apply mapM_Forall2 in El.
      destruct (@Forall2_In_l _ _ _ _ _ r El Hin) as (y & _ & Hy).
      assert (Hr : to_datetime strptime (Campaigns.Date r)
                   = Raise DateParseError).
      { apply to_datetime_raises. now split. }
      rewrite Hr in Hy. discriminate.
    + apply mapM_Raise in El. destruct El as (x & _ & Hx).
      destruct (to_datetime strptime (Campaigns.Date x)) as [d|e''] eqn:Ed;
        simpl in Hx; [discriminate|].
      injection Hx as <-. apply to_datetime_raises in Ed.
      now destruct Ed as [-> _].
Qed.

Lemma campaign_loader_error_witness :
  Campaigns.load_and_clean_data strptime_mdY MoreExamples.iso_dated
  = Raise DateParseError
  /\ Campaigns.load_and_clean_data strptime_mdY MoreExamples.iso_dated_unpaid
     <> Raise DateParseError.
Proof.
  split.
  - apply (proj2 (campaign_loader_error strptime_mdY MoreExamples.iso_dated
                    DateParseError)).
    split; [reflexivity|].
    exists (Examples.campaign "2024-01-06" "CAMP_1" 800 10 1 30 20).
    split.
    + right. left. reflexivity.
    + exists "2024-01-06"%string. split; reflexivity.
  - intro H.
    apply (proj1 (campaign_loader_error strptime_mdY
                    MoreExamples.iso_dated_unpaid DateParseError)) in H.
    destruct H as (_ & r & [<- | []] & (s & Hs & Hn)).
    injection Hs as <-. discriminate.
Defined.

(** ** The customer loader *)

Lemma row_eqb_refl (r : Customers.Row) : Customers.row_eqb r r = true.
Proof.
  unfold Customers.row_eqb.
  assert (Hs : forall o : option string,
             Customers.opt_eqb String.eqb o o = true).
  { intros [s|]; simpl; [apply String.eqb_refl | reflexivity]. }
  assert (Hd : forall d : date_cell, Customers.date_eqb d d = true).
  { intros [s|t|]; simpl;
      [apply String.eqb_refl | apply Z.eqb_refl | reflexivity]. }
  assert (Hq : forall o : option Q, Customers.opt_eqb Qeq_bool o o = true).
  { intros [q|]; simpl; [apply Qeq_bool_refl | reflexivity]. }
  now rewrite !Hs, !Hd, Hq.
Qed.

Lemma keep_first_covers (kept : Customers.DataFrame) (x r : Customers.Row) :
  existsb (Customers.row_eqb r) kept = true ->
  existsb (Customers.row_eqb r) (Customers.keep_first kept x) = true.
Proof.
  intro H. unfold Customers.keep_first.
  destruct (existsb (Customers.row_eqb x) kept); [exact H|].
  rewrite existsb_app, H. reflexivity.
Qed.

Lemma keep_first_covers_new (kept : Customers.DataFrame) (r : Customers.Row) :
  existsb (Customers.row_eqb r) (Customers.keep_first kept r) = true.
Proof.
  unfold Customers.keep_first.
  destruct (existsb (Customers.row_eqb r) kept) eqn:E; [exact E|].
  rewrite existsb_app. simpl. rewrite row_eqb_refl.
  now rewrite orb_true_r.
Qed.

Lemma kept_covers (df kept : Customers.DataFrame) (r : Customers.Row) :
  existsb (Customers.row_eqb r) kept = true \/ In r df ->
  existsb (Customers.row_eqb r) (fold_left Customers.keep_first df kept)
  = true.
Proof.
  revert kept. induction df as [|x df IH]; intros kept H; simpl.
  - destruct H as [H | []]. exact H.
  - apply IH. destruct H as [H | [-> | H]].
    + left. now apply keep_first_covers.
    + left. apply keep_first_covers_new.
    + now right.
Qed.

Lemma kept_length (df kept : Customers.DataFrame) :
  (List.length (fold_left Customers.keep_first df kept)
   <= List.length kept + List.length df)%nat.
Proof.
  revert kept. induction df as [|x df IH]; intro kept; simpl.
  - lia.
  - etransitivity; [apply IH|]. unfold Customers.keep_first.
    destruct (existsb (Customers.row_eqb x) kept); [lia|].
    rewrite length_app. simpl. lia.
Qed.

(** X3.  [drop_duplicates] returns rows of the frame, no two of them
    equal, and every row of the frame is equal to one it returns; it
    returns a frame without equal rows as it is, so running it twice
    changes nothing more. *)
Theorem drop_duplicates_keeps_one_of_each (df : Customers.DataFrame) :
  Customers.distinct_rows (Customers.drop_duplicates df)
  /\ (forall r, In r (Customers.drop_duplicates df) -> In r df)
  /\ (forall r, In r df ->
                exists k, In k (Customers.drop_duplicates df)
                          /\ Customers.row_eqb r k = true)
  /\ (List.length (Customers.drop_duplicates df) <= List.length df)%nat
  /\ Customers.drop_duplicates (Customers.drop_duplicates df)
     = Customers.drop_duplicates df.
Proof.
  split; [apply drop_duplicates_is_distinct|].
  split; [apply drop_duplicates_incl|].
  split; [|split].
  - intros r Hin.
    assert (H : existsb (Customers.row_eqb r) (Customers.drop_duplicates df)
                = true).
    { apply kept_covers. now right. }
    apply existsb_exists in H. exact H.
  - apply (kept_length df []).
  - apply drop_duplicates_distinct, drop_duplicates_is_distinct.
Qed.

(** X4.  The customer loader returns, in their order, the rows that are
    left after duplicates, rows without Order Amount or Customer ID and
    rows with an Order Amount that is not positive have been dropped; it
    changes nothing in them but the two dates, which it parses; so every
    row it returns has a Customer ID, a positive Order Amount and no date
    text left. *)
Theorem customer_loader_output (strptime : string -> option Z)
  (raw df : Customers.DataFrame) :
  Customers.load_and_clean_data strptime raw = Ok df ->
  Forall2 (fun r r' =>
             customer_fields r' = customer_fields r
             /\ to_datetime strptime (Customers.Order_Date r)
                = Ok (Customers.Order_Date r')
             /\ to_datetime strptime (Customers.Signup_Date r)
                = Ok (Customers.Signup_Date r'))
          (Customers.drop_steps raw) df
  /\ Forall (fun r =>
               (exists k, Customers.Customer_ID r = Some k)
               /\ (exists a, Customers.Order_Amount r = Some a /\ 0 < a)
               /\ parsed_date (Customers.Order_Date r)
               /\ parsed_date (Customers.Signup_Date r)) df
  /\ (List.length df <= List.length raw)%nat.
Proof.
  intro H.
  assert (H2 : Forall2 (fun r r' =>
             customer_fields r' = customer_fields r
             /\ to_datetime strptime (Customers.Order_Date r)
                = Ok (Customers.Order_Date r')
             /\ to_datetime strptime (Customers.Signup_Date r)
                = Ok (Customers.Signup_Date r'))
          (Customers.drop_steps raw) df).
  { rewrite customer_loader_steps in H. apply mapM_Forall2 in H.
    eapply Forall2_impl; [|exact H].
    intros r r' Hr. simpl in Hr.
    destruct (to_datetime strptime (Customers.Order_Date r)) as [o|e];
      simpl in Hr; [|discriminate].
    destruct (to_datetime strptime (Customers.Signup_Date r)) as [s|e];
      simpl in Hr; [|discriminate].
    injection Hr as <-. repeat split; reflexivity. }
  split; [exact H2|]. split.
  - pose proof (customer_cleaned_rows _ _ H) as Hc.
    eapply Forall_impl; [|exact Hc].
    intros r Hr.
    destruct (clean_row_has_customer Hr) as (k & Hk).
    destruct Hr as (_ & Ha & Ho & Hs).
    split; [now exists k|]. split; [|split].
    + destruct (Customers.Order_Amount r) as [a|]; [|discriminate].
      exists a. split; [reflexivity|]. now apply Qltb_lt.
    + apply (to_datetime_parsed_date _ _ Ho).
    + apply (to_datetime_parsed_date _ _ Hs).
  - rewrite <- (Forall2_length H2). unfold Customers.drop_steps.
    etransitivity; [apply filter_length_le|].
    etransitivity; [apply filter_length_le|].
    apply (kept_length raw []).
Qed.

Lemma customer_loader_output_witness :
  List.length (Examples.loaded MoreExamples.repeated) = 2%nat
  /\ Forall (fun r =>
               (exists k, Customers.Customer_ID r = Some k)
               /\ (exists a, Customers.Order_Amount r = Some a /\ 0 < a)
               /\ parsed_date (Customers.Order_Date r)
               /\ parsed_date (Customers.Signup_Date r))
            (Examples.loaded MoreExamples.repeated).
Proof.
  split; [reflexivity|].
  exact (proj1 (proj2 (@customer_loader_output strptime_mdY
                         MoreExamples.repeated
                         (Examples.loaded MoreExamples.repeated)
                         eq_refl))).
Defined.



(** ** The best row *)

Section BestFacts.
Context {A : Type}.
Variable key : A -> float.
Variable better : float -> float -> bool.
Variable score : A -> Q.
Hypothesis better_score :
  forall x y, is_finite (key x) = true -> is_finite (key y) = true ->
              better (key x) (key y) = Qltb (score y) (score x).



End BestFacts.

(** ** The campaign table *)

Lemma nansum_pos (col : list (option Q)) :
  col <> [] ->
  Forall (fun x => exists s, x = Some s /\ 0 < s) col ->
  0 < nansum col.
Proof.
  intros Hne H. induction H as [|x col (s & -> & Hs) Hcol IH].
  - contradiction.
  - rewrite nansum_cons. simpl.
    destruct col as [|y col].
    + unfold nansum. simpl. lra.
    + assert (0 < nansum (y :: col)) by (apply IH; discriminate). lra.
Qed.

Lemma values_of_nonempty {A : Type} (k : string)
  (rows : list (option string * A)) :
  In k (unique (dropna (map fst rows))) -> values_of k rows <> [].
Proof.
  rewrite unique_In, dropna_In, in_map_iff.
  intros ((k' & a) & Hk & Hin). simpl in Hk. subst k'.
  assert (H : In (Some k, a) (filter (has_key k) rows)).
  { apply filter_In. split; [exact Hin|].
    unfold has_key. simpl. apply String.eqb_refl. }
  unfold values_of. intro E.
  apply (in_map snd) in H. rewrite E in H. exact H.
Qed.

Lemma values_of_In {A : Type} (k : string) (rows : list (option string * A))
  (a : A) :
  In a (values_of k rows) -> In (Some k, a) rows.
Proof.
  unfold values_of. rewrite in_map_iff.
  intros ((k' & a') & Ha & Hin). simpl in Ha. subst a'.
  apply filter_In in Hin. destruct Hin as [Hin Hk].
  unfold has_key in Hk. simpl in Hk.
  destruct k' as [k'|]; [|discriminate].
  apply String.eqb_eq in Hk. now subst.
Qed.













(** ** All or nothing *)

(** X8.  Neither script leaves a partial record: on any input and for any
    parser, a run that raises (while loading or in [calculate_metrics]) and
    a run that finds no input file leave the metrics file as it was, and a
    run that completes leaves a record in it. *)
Theorem scripts_write_all_or_nothing (strptime : string -> option Z) :
  (forall (csv : option Campaigns.DataFrame) (store : Campaigns.Store),
      all_or_nothing (notna csv) store (Campaigns.main strptime csv store))
  /\ (forall (csv : option Customers.DataFrame) (store : Customers.Store),
         all_or_nothing (notna csv) store
                        (Customers.main strptime csv store)).
Proof.
  split; intros [raw|] store; unfold all_or_nothing; simpl;
    try reflexivity.
  - unfold bind, lift.
    destruct (Campaigns.load_and_clean_data strptime raw) as [df|e];
      [|reflexivity].
    unfold Campaigns.calculate_metrics, bind, lift, write, ret.
    destruct (Campaigns.idxmax (Campaigns.campaign_stats df)) as [top|e];
      [|reflexivity].
    destruct (Campaigns.idxmin (Campaigns.campaign_stats df)) as [bot|e];
      [|reflexivity].
    simpl. eexists. reflexivity.
  - unfold bind, lift.
    destruct (Customers.load_and_clean_data strptime raw) as [df|e];
      [|reflexivity].
    unfold Customers.calculate_metrics, bind, lift, write, ret.
    destruct (Customers.py_divide (List.length df)
                                  (Customers.active_customers df))
      as [bf|e]; [|reflexivity].
    destruct (Customers.check_dates df) as [[]|e]; [|reflexivity].
    simpl. eexists. reflexivity.
Qed.

(** ** The campaign table, continued *)

Section SortedKeys.
Context {B : Type}.


End SortedKeys.


Lemma groupby_keys_perm {A B : Type} (zero : B) (step : B -> A -> B)
  (rows : list (option string * A)) :
  Permutation (map fst (groupby zero step rows))
              (unique (dropna (map fst rows))).
Proof.
  unfold groupby.
  rewrite (Permutation_map fst (sort_by_key_perm (collect zero step rows))).
  now rewrite collect_keys.
Qed.


(** ** Sums over groups *)

Lemma Qsum_app (l l' : list Q) : Qsum (l ++ l') == Qsum l + Qsum l'.
Proof.
  induction l as [|x l IH]; simpl.
  - ring.
  - rewrite IH. ring.
Qed.

Lemma Qsum_perm (l l' : list Q) : Permutation l l' -> Qsum l == Qsum l'.
Proof.
  induction 1 as [|x l l' _ IH|x y l|l l' l'' _ IH1 _ IH2]; simpl.
  - reflexivity.
  - now rewrite IH.
  - ring.
  - now rewrite IH1.
Qed.

Lemma nansum_Qsum (col : list (option Q)) : nansum col == Qsum (map or_0 col).
Proof.
  induction col as [|x col IH].
  - reflexivity.
  - rewrite nansum_cons. simpl. rewrite IH. destruct x; simpl; ring.
Qed.

Section GroupSums.
Context {A B : Type}.
Variable zero : B.
Variable step : B -> A -> B.
Variable weight : B -> Q.
Variable gain : A -> Q.
Hypothesis weight_zero : weight zero == 0.
Hypothesis weight_step : forall b a, weight (step b a) == weight b + gain a.

Lemma upsert_total (k : string) (a : A) (g : list (string * B)) :
  group_total weight (upsert zero step k a g)
  == group_total weight g + gain a.
Proof.
  unfold group_total. induction g as [|[k' b] g IH]; simpl.
  - rewrite weight_step, weight_zero. ring.
  - destruct (String.eqb k k'); simpl.
    + rewrite weight_step. ring.
    + rewrite IH. ring.
Qed.

Lemma collect_total (rows : list (option string * A))
  (g : list (string * B)) :
  group_total weight (fold_left (collect1 zero step) rows g)
  == group_total weight g + Qsum (map gain (keyed rows)).
Proof.
  revert g. induction rows as [|[[k|] a] rows IH]; intro g; simpl.
  - unfold keyed. simpl. ring.
  - rewrite IH. unfold collect1. simpl. rewrite upsert_total.
    unfold keyed. simpl. ring.
  - rewrite IH. reflexivity.
Qed.

(** The groups share out the rows that carry a key: their totals add up to
    the total of those rows. *)
Lemma groupby_total (rows : list (option string * A)) :
  group_total weight (groupby zero step rows)
  == Qsum (map gain (keyed rows)).
Proof.
  unfold groupby, group_total.
  rewrite (Qsum_perm (Permutation_map _ (sort_by_key_perm _))).
  fold (group_total weight (collect zero step rows)).
  unfold collect. rewrite collect_total. unfold group_total. simpl. ring.
Qed.
End GroupSums.

Lemma keyed_campaigns (df : Campaigns.DataFrame) :
  keyed (map (fun r => (Campaigns.Campaign_ID r, r)) df) = named df.
Proof.
  unfold keyed, named. rewrite filter_map_comm, map_map. simpl.
  apply map_id.
Qed.

Lemma named_all (df : Campaigns.DataFrame) :
  Forall (fun r => Campaigns.Campaign_ID r <> None) df -> named df = df.
Proof.
  intro H. unfold named. apply filter_all.
  eapply Forall_impl; [|exact H].
  intros r Hr. simpl in Hr.
  destruct (Campaigns.Campaign_ID r); [reflexivity | contradiction].
Qed.

(** X10.  The campaign table shares out the rows that name a campaign:
    its Spend column adds up to the Spend of those rows and its Revenue
    column to their Revenue, so when every row names its campaign the
    columns add up to the overall totals the record is computed from. *)
Theorem campaign_table_totals (df : Campaigns.DataFrame) :
  Qsum (map Campaigns.stat_Spend (Campaigns.campaign_stats df))
  == Campaigns.total_spend (named df)
  /\ Qsum (map Campaigns.stat_Revenue (Campaigns.campaign_stats df))
     == Campaigns.total_revenue (named df)
  /\ (Forall (fun r => Campaigns.Campaign_ID r <> None) df ->
      Qsum (map Campaigns.stat_Spend (Campaigns.campaign_stats df))
      == Campaigns.total_spend df
      /\ Qsum (map Campaigns.stat_Revenue (Campaigns.campaign_stats df))
         == Campaigns.total_revenue df).
Proof.
  set (rows := map (fun r => (Campaigns.Campaign_ID r, r)) df).
  assert (Hs : Qsum (map Campaigns.stat_Spend (Campaigns.campaign_stats df))
               == Campaigns.total_spend (named df)).
  { unfold Campaigns.campaign_stats. rewrite map_map. simpl.
    pose proof (@groupby_total _ _ (0, 0) Campaigns.add_row
                  (fun b => fst b) (fun r => or_0 (Campaigns.Spend r))
                  (Qeq_refl 0)) as H.
    unfold group_total in H. rewrite H.
    - fold rows. unfold rows. rewrite keyed_campaigns.
      unfold Campaigns.total_spend. rewrite nansum_Qsum, map_map.
      reflexivity.
    - intros b r. simpl. destruct (Campaigns.Spend r); simpl; ring. }
  assert (Hr : Qsum (map Campaigns.stat_Revenue (Campaigns.campaign_stats df))
               == Campaigns.total_revenue (named df)).
  { unfold Campaigns.campaign_stats. rewrite map_map. simpl.
    pose proof (@groupby_total _ _ (0, 0) Campaigns.add_row
                  (fun b => snd b) (fun r => or_0 (Campaigns.Revenue r))
                  (Qeq_refl 0)) as H.
    unfold group_total in H. rewrite H.
    - fold rows. unfold rows. rewrite keyed_campaigns.
      unfold Campaigns.total_revenue. rewrite nansum_Qsum, map_map.
      reflexivity.
    - intros b r. simpl. destruct (Campaigns.Revenue r); simpl; ring. }
  split; [exact Hs|]. split; [exact Hr|].
  intro Hall. rewrite (named_all Hall) in Hs, Hr. split; assumption.
Qed.

Lemma campaign_table_totals_witness :
  Qsum (map Campaigns.stat_Spend
            (Campaigns.campaign_stats
               (Examples.parsed MoreExamples.three_campaigns)))
  == Campaigns.total_spend (Examples.parsed MoreExamples.three_campaigns).
Proof.
  apply (proj2 (proj2 (campaign_table_totals
                         (Examples.parsed MoreExamples.three_campaigns)))).
  repeat constructor; discriminate.
Defined.

(** ** The customer record *)

Lemma rejected_orders_dropped (strptime : string -> option Z)
  (raw : Customers.DataFrame) :
  Forall amount_not_positive raw ->
  Customers.load_and_clean_data strptime raw = Ok [].
Proof.
  intro H. rewrite customer_loader_steps.
  unfold Customers.drop_steps. rewrite filter_none; [reflexivity|].
  rewrite Forall_forall in *. intros r Hin.
  apply filter_In in Hin. destruct Hin as [Hin _].
  apply drop_duplicates_incl in Hin.
  specialize (H r Hin). unfold amount_not_positive in H.
  destruct (Customers.Order_Amount r) as [a|]; simpl; [|reflexivity].
  now apply Qltb_ge.
Qed.

(** X11.  When no row of the raw customer data has a positive Order
    Amount (an empty file included), the loader returns the empty frame,
    [calculate_metrics] divides the row count by zero customers, and the
    script ends with [ZeroDivisionError] without writing
    [customer_metrics.json]. *)
Theorem rejected_orders_raise (strptime : string -> option Z)
  (raw : Customers.DataFrame) (store : Customers.Store) :
  Forall amount_not_positive raw ->
  Customers.load_and_clean_data strptime raw = Ok []
  /\ Customers.calculate_metrics [] store = (store, Raise ZeroDivisionError)
  /\ Customers.main strptime (Some raw) store
     = (store, Raise ZeroDivisionError).
Proof.
  intro H. apply (rejected_orders_dropped strptime) in H.
  split; [exact H|]. split; [reflexivity|].
  unfold Customers.main, bind, lift. rewrite H. reflexivity.
Qed.

Lemma rejected_orders_raise_witness :
  Customers.main strptime_mdY (Some MoreExamples.refunds) None
  = (None, Raise ZeroDivisionError)
  /\ Customers.main strptime_mdY (Some []) None
     = (None, Raise ZeroDivisionError).
Proof.
  split.
  - apply (@rejected_orders_raise strptime_mdY MoreExamples.refunds None).
    repeat constructor; simpl; discriminate.
  - apply (@rejected_orders_raise strptime_mdY [] None). constructor.
Defined.

Lemma seen_length (col seen : list string) :
  (List.length (fold_left see col seen)
   <= List.length seen + List.length col)%nat.
Proof.
  revert seen. induction col as [|k col IH]; intro seen; simpl.
  - lia.
  - etransitivity; [apply IH|]. unfold see.
    destruct (mem k seen); [lia|]. rewrite length_app. simpl. lia.
Qed.

Lemma dropna_length {A : Type} (col : list (option A)) :
  (List.length (dropna col) <= List.length col)%nat.
Proof.
  induction col as [|[x|] col IH]; simpl; lia.
Qed.

Lemma nunique_le (col : list (option string)) :
  (nunique col <= List.length col)%nat.
Proof.
  unfold nunique, unique.
  etransitivity; [apply seen_length|]. simpl. apply dropna_length.
Qed.

(** X12.  On a non-empty cleaned customer frame the stored Buying
    Frequency is the number of rows divided by the number of distinct
    customers, and it is at least 1. *)
Theorem buying_frequency_at_least_1 (strptime : string -> option Z)
  (df : Customers.DataFrame) (store : Customers.Store) :
  Customers.cleaned strptime df ->
  df <> [] ->
  exists m q,
    Customers.calculate_metrics df store = (Some m, Ok m)
    /\ Customers.Buying_Frequency m = Fin q
    /\ q == Qnat (List.length df) / Qnat (Customers.active_customers df)
    /\ 1 <= q.
Proof.
  intros [raw Hraw] Hne.
  pose proof (customer_cleaned_rows _ _ Hraw) as Hclean.
  destruct (customer_metrics_written store Hclean Hne)
    as (m & Hm & _ & Hbf & _).
  pose proof (customers_nonempty Hclean Hne) as Hact.
  exists m. eexists. split; [exact Hm|]. split; [exact Hbf|].
  split; [reflexivity|].
  assert (Hle : (Customers.active_customers df <= List.length df)%nat).
  { unfold Customers.active_customers.
    etransitivity; [apply nunique_le|]. now rewrite length_map. }
  apply Qnat_pos in Hact.
  apply Qle_shift_div_l; [exact Hact|].
  assert (H : Qnat (Customers.active_customers df)
              <= Qnat (List.length df)).
  { unfold Qnat, Qle. simpl. lia. }
  lra.
Qed.

Lemma buying_frequency_at_least_1_witness :
  exists m q,
    Customers.calculate_metrics (Examples.loaded Examples.trio) None
    = (Some m, Ok m)
    /\ Customers.Buying_Frequency m = Fin q
    /\ q == 2.
Proof.
  destruct (@buying_frequency_at_least_1 strptime_mdY
              (Examples.loaded Examples.trio) None)
    as (m & q & Hm & Hq & E & _).
  - exists Examples.trio. reflexivity.
  - discriminate.
  - exists m, q. split; [exact Hm|]. split; [exact Hq|].
    rewrite E. reflexivity.
Defined.

Lemma rate_within_0_100 (n a : nat) :
  (0 < a)%nat -> (n <= a)%nat ->
  Campaigns.within_0_100 (times100 (np_divide (Qnat n) (Qnat a))).
Proof.
  intros Ha Hn.
  assert (H0 : 0 <= Qnat n) by (unfold Qnat, Qle; simpl; lia).
  assert (H1 : Qnat n <= Qnat a) by (unfold Qnat, Qle; simpl; lia).
  apply Qnat_pos in Ha.
  rewrite np_divide_finite by lra. simpl.
  assert (Hlo : 0 <= Qnat n / Qnat a).
  { apply Qle_shift_div_l; [assumption | lra]. }
  assert (Hhi : Qnat n / Qnat a <= 1).
  { apply Qle_shift_div_r; [assumption | lra]. }
  split; lra.
Qed.

(** X13.  On a non-empty cleaned customer frame the stored Retention Rate
    and Churn Rate are numbers between 0 and 100. *)
Theorem customer_rates_are_percentages (strptime : string -> option Z)
  (df : Customers.DataFrame) (store : Customers.Store) :
  Customers.cleaned strptime df ->
  df <> [] ->
  exists m,
    Customers.calculate_metrics df store = (Some m, Ok m)
    /\ Campaigns.within_0_100 (Customers.Retention_Rate m)
    /\ Campaigns.within_0_100 (Customers.Churn_Rate m).
Proof.
  intros [raw Hraw] Hne.
  pose proof (customer_cleaned_rows _ _ Hraw) as Hclean.
  destruct (customer_metrics_written store Hclean Hne)
    as (m & Hm & _ & _ & _ & Hret & Hchurn & _).
  pose proof (customers_nonempty Hclean Hne) as Hact.
  exists m. split; [exact Hm|]. rewrite Hret, Hchurn. split.
  - apply rate_within_0_100; [exact Hact|].
    rewrite retained_customers_spec, active_customers_spec.
    apply filter_length_le.
  - apply rate_within_0_100; [exact Hact|].
    rewrite churned_customers_spec, active_customers_spec.
    apply filter_length_le.
Qed.

Lemma customer_rates_are_percentages_witness :
  exists m,
    Customers.calculate_metrics (Examples.loaded Examples.pair) None
    = (Some m, Ok m)
    /\ Campaigns.within_0_100 (Customers.Retention_Rate m)
    /\ Campaigns.within_0_100 (Customers.Churn_Rate m).
Proof.
  apply (@customer_rates_are_percentages strptime_mdY).
  - exists Examples.pair. reflexivity.
  - discriminate.
Defined.

(** X14.  No customer has been inactive for a negative number of days:
    every entry of [days_inactive] is missing or at least 0, on any
    frame. *)
Theorem days_inactive_not_negative (df : Customers.DataFrame) :
  Forall (fun g => not_negative (snd g)) (Customers.days_inactive df).
Proof.
  unfold Customers.days_inactive. rewrite Forall_map. simpl.
  apply (Permutation_Forall (Permutation_sym (last_order_date_spec df))).
  rewrite Forall_map, Forall_forall. intros k _. simpl.
  destruct (Customers.last_order_of df k) as [l|] eqn:Hl.
  - destruct (last_before_current _ _ Hl) as (c & Hc & Hle).
    rewrite Hc. simpl. unfold days. apply Z.div_pos; [lia | reflexivity].
  - now destruct (Customers.current_date df).
Qed.

(** ** Customers: what the groups add up to *)

Lemma Qsum_ones {A : Type} (l : list A) :
  Qsum (map (fun _ => 1) l) == Qnat (List.length l).
Proof.
  induction l as [|x l IH].
  - reflexivity.
  - cbn [map Qsum fold_right List.length]. fold (Qsum (map (fun _ : A => 1) l)).
    rewrite IH. unfold Qnat. rewrite Nat2Z.inj_succ, <- Z.add_1_l.
    rewrite inject_Z_plus. reflexivity.
Qed.

Lemma Qsum_Qnat (l : list nat) : Qsum (map Qnat l) == Qnat (list_sum l).
Proof.
  induction l as [|n l IH].
  - reflexivity.
  - cbn [map Qsum fold_right list_sum]. fold (Qsum (map Qnat l)).
    rewrite IH. unfold Qnat. rewrite Nat2Z.inj_add, inject_Z_plus.
    reflexivity.
Qed.

Lemma Qnat_inj (n m : nat) : Qnat n == Qnat m -> n = m.
Proof.
  unfold Qnat, Qeq. simpl. lia.
Qed.

Lemma keyed_customers {A : Type} (strptime : string -> option Z)
  (f : Customers.Row -> A) (df : Customers.DataFrame) :
  Forall (Customers.row_clean strptime) df ->
  keyed (Customers.by_customer f df) = map f df.
Proof.
  intro H. unfold keyed, Customers.by_customer.
  rewrite filter_map_comm, map_map. simpl.
  rewrite filter_all; [reflexivity|].
  eapply Forall_impl; [|exact H].
  intros r Hr. destruct (clean_row_has_customer Hr) as (k & Hk).
  now rewrite Hk.
Qed.

(** X15.  On a cleaned customer frame every row belongs to exactly one
    customer: the per-customer order counts add up to the number of rows,
    and the per-customer revenues add up to the Total Revenue, which is
    positive when the frame is not empty. *)
Theorem customer_groups_add_up (strptime : string -> option Z)
  (df : Customers.DataFrame) :
  Customers.cleaned strptime df ->
  list_sum (map snd (Customers.order_counts df)) = List.length df
  /\ Qsum (map snd (Customers.customer_revenue df))
     == Customers.total_revenue df
  /\ (df <> [] -> 0 < Customers.total_revenue df).
Proof.
  intros [raw Hraw].
  pose proof (customer_cleaned_rows _ _ Hraw) as Hclean.
  split; [|split].
  - apply Qnat_inj. rewrite <- Qsum_Qnat, map_map.
    pose proof (@groupby_total _ _ O (fun n (_ : unit) => S n)
                  Qnat (fun _ => 1) (Qeq_refl 0)) as H.
    unfold group_total in H. unfold Customers.order_counts. rewrite H.
    + rewrite (keyed_customers (fun _ => tt) Hclean).
      now rewrite Qsum_ones, length_map.
    + intros n _. unfold Qnat. rewrite Nat2Z.inj_succ, <- Z.add_1_r.
      rewrite inject_Z_plus. reflexivity.
  - pose proof (@groupby_total _ _ 0 nanadd (fun q => q) or_0
                  (Qeq_refl 0)) as H.
    unfold group_total in H. unfold Customers.customer_revenue.
    rewrite H.
    + rewrite (keyed_customers Customers.Order_Amount Hclean).
      unfold Customers.total_revenue. now rewrite nansum_Qsum.
    + intros b [a|]; simpl; ring.
  - intro Hne. unfold Customers.total_revenue. apply nansum_pos.
    + destruct df; [contradiction | discriminate].
    + rewrite Forall_map. eapply Forall_impl; [|exact Hclean].
      intros r (_ & Ha & _).
      destruct (Customers.Order_Amount r) as [a|]; [|discriminate].
      exists a. split; [reflexivity|]. now apply Qltb_lt.
Qed.

Lemma customer_groups_add_up_witness :
  list_sum (map snd (Customers.order_counts (Examples.loaded Examples.trio)))
  = 6%nat
  /\ Qsum (map snd (Customers.customer_revenue
                      (Examples.loaded Examples.trio)))
     == Customers.total_revenue (Examples.loaded Examples.trio).
Proof.
  destruct (@customer_groups_add_up strptime_mdY
              (Examples.loaded Examples.trio)) as (H1 & H2 & _).
  - exists Examples.trio. reflexivity.
  - split; [exact H1 | exact H2].
Defined.

(** ** Customers: where the cut-offs lie *)

Lemma revenue_of_customer (df : Customers.DataFrame) (x : Q) :
  In x (Customers.sort_values (map snd (Customers.customer_revenue df))) ->
  exists k, In k (Customers.customers df) /\ x = Customers.spent_by df k.
Proof.
  intro H.
  apply (Permutation_in _ (sort_values_perm _)) in H.
  apply (Permutation_in _ (revenue_values_spec df)) in H.
  apply in_map_iff in H. destruct H as (k & E & Hk).
  exists k. split; [exact Hk | now symmetry].
Qed.

(** X16.  On a non-empty cleaned customer frame both cut-offs are numbers
    that lie between what the customer who spent least and the customer
    who spent most have spent: some customer spent no more than the
    medium cut-off, the medium cut-off is not above the High Value
    Cutoff, and some customer spent at least the High Value Cutoff. *)
Theorem cutoffs_between_customers (strptime : string -> option Z)
  (df : Customers.DataFrame) :
  Customers.cleaned strptime df ->
  df <> [] ->
  exists h md kmin kmax,
    Customers.high_cutoff (Customers.segment_customers df) = Fin h
    /\ Customers.med_cutoff (Customers.segment_customers df) = Fin md
    /\ In kmin (Customers.customers df)
    /\ In kmax (Customers.customers df)
    /\ Customers.spent_by df kmin <= md
    /\ md <= h
    /\ h <= Customers.spent_by df kmax.
Proof.
  intros [raw Hraw] Hne.
  pose proof (customer_cleaned_rows _ _ Hraw) as Hclean.
  pose proof (customers_nonempty Hclean Hne) as Hact.
  destruct (cutoffs_ordered df Hact) as (h & md & Hh & Hmd & Hle).
  pose proof (revenue_values_nonempty df Hact) as Hvals.
  unfold Customers.segment_customers in Hh, Hmd. simpl in Hh, Hmd.
  rewrite (quantile_nonempty _ Hvals) in Hh.
  rewrite (quantile_nonempty _ Hvals) in Hmd.
  injection Hh as Hh. injection Hmd as Hmd.
  set (s := Customers.sort_values (map snd (Customers.customer_revenue df))) in *.
  assert (Hn : (0 < List.length s)%nat).
  { unfold s. rewrite sort_values_length, revenue_values_length.
    now rewrite <- active_customers_spec. }
  assert (H8 : 0 <= 8 # 10 /\ 8 # 10 <= 1) by (split; discriminate).
  assert (H5 : 0 <= 5 # 10 /\ 5 # 10 <= 1) by (split; discriminate).
  destruct (rank_of_range Hn (proj1 H8) (proj2 H8)) as [R8a R8b].
  destruct (rank_of_range Hn (proj1 H5) (proj2 H5)) as [R5a R5b].
  destruct (rank_bracket Hn R8a R8b) as (A0 & A1 & _).
  destruct (rank_bracket Hn R5a R5b) as (B0 & B1 & _).
  destruct (interpolate_bracket (sort_values_sorted _) Hn R8a R8b)
    as [_ Hup].
  destruct (interpolate_bracket (sort_values_sorted _) Hn R5a R5b)
    as [Hdown _].
  fold s in Hup, Hdown. rewrite Hh in Hup. rewrite Hmd in Hdown.
  destruct (@revenue_of_customer df
              (nth (Z.to_nat (Qfloor (Customers.rank_of (5 # 10)
                                        (List.length s)))) s 0))
    as (kmin & Hkmin & Emin).
  { fold s. apply nth_In. lia. }
  destruct (@revenue_of_customer df
              (nth (Z.to_nat
                      (Z.min (Qfloor (Customers.rank_of (8 # 10)
                                        (List.length s)) + 1)
                             (Z.of_nat (List.length s) - 1))) s 0))
    as (kmax & Hkmax & Emax).
  { fold s. apply nth_In. lia. }
  exists h, md, kmin, kmax.
  unfold Customers.segment_customers. simpl.
  rewrite !(quantile_nonempty _ Hvals). fold s. rewrite Hh, Hmd.
  repeat split; try assumption.
  - now rewrite <- Emin.
  - now rewrite <- Emax.
Qed.

Lemma cutoffs_between_customers_witness :
  exists h md,
    Customers.high_cutoff
      (Customers.segment_customers (Examples.loaded Examples.trio)) = Fin h
    /\ Customers.med_cutoff
         (Customers.segment_customers (Examples.loaded Examples.trio))
       = Fin md
    /\ md <= h.
Proof.
  destruct (@cutoffs_between_customers strptime_mdY
              (Examples.loaded Examples.trio))
    as (h & md & _ & _ & Hh & Hmd & _ & _ & _ & Hle & _).
  - exists Examples.trio. reflexivity.
  - discriminate.
  - exists h, md. repeat split; assumption.
Defined.

(** ** Customers: how many fall in a segment *)

Lemma interpolate_le_nth (s : list Q) (rank : Q) (i : nat) :
  StronglySorted Qle s ->
  (i < List.length s)%nat ->
  0 <= rank -> rank <= inject_Z (Z.of_nat i) ->
  Customers.interpolate s rank <= nth i s 0.
Proof.
  intros Hs Hi H0 Hr.
  assert (Hn : (0 < List.length s)%nat) by lia.
  assert (H1 : rank <= inject_Z (Z.of_nat (List.length s) - 1)).
  { eapply Qle_trans; [exact Hr|]. rewrite <- Zle_Qle. lia. }
  destruct (rank_bracket Hn H0 H1) as (Hlo0 & Hlo1 & Hf0 & Hf1).
  pose proof (Qfloor_resp_le _ _ Hr) as Hfl. rewrite Qfloor_Z in Hfl.
  destruct (Z.eq_dec (Qfloor rank) (Z.of_nat i)) as [E | Hne].
  - unfold Customers.interpolate. rewrite E, Nat2Z.id.
    assert (Hz : rank - inject_Z (Z.of_nat i) == 0).
    { rewrite E in Hf0. lra. }
    rewrite Hz. ring_simplify. apply Qle_refl.
  - destruct (interpolate_bracket Hs Hn H0 H1) as [_ Hup].
    eapply Qle_trans; [exact Hup|].
    apply sorted_nth; [assumption | lia | lia].
Qed.

Lemma count_prefix {A : Type} (p : A -> bool) (d : A) (s : list A)
  (i0 : nat) :
  (forall i, (i0 <= i)%nat -> (i < List.length s)%nat ->
             p (nth i s d) = false) ->
  (List.length (filter p s) <= i0)%nat.
Proof.
  revert i0. induction s as [|x s IH]; intros i0 H; simpl.
  - lia.
  - destruct i0 as [|j].
    + assert (Hx : p x = false) by (apply (H 0%nat); simpl; lia).
      rewrite Hx.
      apply (IH 0%nat). intros i _ Hi. apply (H (S i)); simpl; lia.
    + assert (Hs : (List.length (filter p s) <= j)%nat).
      { apply IH. intros i Hj Hi. apply (H (S i)); simpl; lia. }
      destruct (p x); simpl; lia.
Qed.

Lemma count_suffix {A : Type} (p : A -> bool) (d : A) (s : list A)
  (i1 : nat) :
  (forall i, (i1 <= i)%nat -> (i < List.length s)%nat ->
             p (nth i s d) = true) ->
  (List.length s - i1 <= List.length (filter p s))%nat.
Proof.
  revert i1. induction s as [|x s IH]; intros i1 H; simpl.
  - lia.
  - destruct i1 as [|j].
    + assert (Hx : p x = true) by (apply (H 0%nat); simpl; lia).
      rewrite Hx. simpl.
      specialize (IH 0%nat). rewrite Nat.sub_0_r in IH.
      apply le_n_S, IH. intros i _ Hi. apply (H (S i)); simpl; lia.
    + assert (Hs : (List.length s - j <= List.length (filter p s))%nat).
      { apply IH. intros i Hj Hi. apply (H (S i)); simpl; lia. }
      destruct (p x); simpl; lia.
Qed.

(** X17.  On a non-empty cleaned customer frame at least a fifth of the
    customers (and at least one) are counted High Value and at most half
    are counted Low Value. *)
Theorem segment_shares (strptime : string -> option Z)
  (df : Customers.DataFrame) (store : Customers.Store) :
  Customers.cleaned strptime df ->
  df <> [] ->
  exists m,
    Customers.calculate_metrics df store = (Some m, Ok m)
    /\ (1 <= Customers.High_Value_Count m)%nat
    /\ (Customers.Active_Customers m <= 5 * Customers.High_Value_Count m)%nat
    /\ (2 * Customers.Low_Value_Count m <= Customers.Active_Customers m)%nat.
Proof.
  intros [raw Hraw] Hne.
  pose proof (customer_cleaned_rows _ _ Hraw) as Hclean.
  pose proof (customers_nonempty Hclean Hne) as Hact.
  destruct (customer_metrics_written store Hclean Hne)
    as (m & Hm & Hactive & _ & _ & _ & _ & _ & Hhigh & _ & Hlow).
  exists m. split; [exact Hm|]. rewrite Hhigh, Hlow, Hactive.
  pose proof (revenue_values_nonempty df Hact) as Hvals.
  unfold Customers.segment_customers. simpl.
  rewrite !(quantile_nonempty _ Hvals).
  set (vals := map snd (Customers.customer_revenue df)) in *.
  set (s := Customers.sort_values vals).
  assert (Hlen : List.length s = Customers.active_customers df).
  { unfold s, vals. rewrite sort_values_length, revenue_values_length.
    now rewrite active_customers_spec. }
  assert (Hsorted : StronglySorted Qle s) by apply sort_values_sorted.
  assert (Hn : (0 < List.length s)%nat) by lia.
  assert (H8 : 0 <= 8 # 10 /\ 8 # 10 <= 1) by (split; discriminate).
  assert (H5 : 0 <= 5 # 10 /\ 5 # 10 <= 1) by (split; discriminate).
  destruct (rank_of_range Hn (proj1 H8) (proj2 H8)) as [R8 _].
  destruct (rank_of_range Hn (proj1 H5) (proj2 H5)) as [R5 _].
  unfold Customers.count.
  rewrite <- (count_perm _ (sort_values_perm vals)).
  rewrite <- (count_perm (fun x => Customers.lt_cutoff x _)
                (sort_values_perm vals)).
  fold s.
  assert (Hhi : (List.length s - (4 * List.length s) / 5
                 <= List.length
                      (filter (fun x => Customers.ge_cutoff x
                                 (Fin (Customers.interpolate s
                                         (Customers.rank_of (8 # 10)
                                            (List.length s))))) s))%nat).
  { apply (count_suffix _ 0). intros i Hi1 Hi. simpl.
    apply Qle_bool_iff. apply interpolate_le_nth; try assumption.
    unfold Customers.rank_of.
    assert (Hz : (4 * (Z.of_nat (List.length s) - 1) <= 5 * Z.of_nat i)%Z).
    { pose proof (Nat.div_mod_eq (4 * List.length s) 5) as Hd.
      pose proof (Nat.mod_upper_bound (4 * List.length s) 5) as Hu. lia. }
    rewrite Zle_Qle, !inject_Z_mult in Hz.
    change (inject_Z 4) with 4 in Hz. change (inject_Z 5) with 5 in Hz.
    lra. }
  assert (Hlo : (List.length
                   (filter (fun x => Customers.lt_cutoff x
                              (Fin (Customers.interpolate s
                                      (Customers.rank_of (5 # 10)
                                         (List.length s))))) s)
                 <= List.length s / 2)%nat).
  { apply (count_prefix _ 0). intros i Hi0 Hi.
    rewrite lt_cutoff_Fin. apply negb_false_iff.
    apply Qle_bool_iff. apply interpolate_le_nth; try assumption.
    unfold Customers.rank_of.
    assert (Hz : (Z.of_nat (List.length s) - 1 <= 2 * Z.of_nat i)%Z).
    { pose proof (Nat.div_mod_eq (List.length s) 2) as Hd.
      pose proof (Nat.mod_upper_bound (List.length s) 2) as Hu. lia. }
    rewrite Zle_Qle, inject_Z_mult in Hz.
    change (inject_Z 2) with 2 in Hz.
    lra. }
  pose proof (Nat.div_mod_eq (4 * List.length s) 5) as Hd5.
  pose proof (Nat.mod_upper_bound (4 * List.length s) 5) as Hu5.
  pose proof (Nat.div_mod_eq (List.length s) 2) as Hd2.
  pose proof (Nat.mod_upper_bound (List.length s) 2) as Hu2.
  rewrite <- Hlen. repeat split; lia.
Qed.

Lemma segment_shares_witness :
  exists m,
    Customers.calculate_metrics (Examples.loaded Examples.trio) None
    = (Some m, Ok m)
    /\ (1 <= Customers.High_Value_Count m)%nat
    /\ (2 * Customers.Low_Value_Count m <= Customers.Active_Customers m)%nat.
Proof.
  destruct (@segment_shares strptime_mdY (Examples.loaded Examples.trio) None)
    as (m & Hm & H1 & _ & H2).
  - exists Examples.trio. reflexivity.
  - discriminate.
  - exists m. repeat split; assumption.
Defined.

(** * The tables behind the charts *)

(** ** The calendar *)

Lemma calendar_ok_from_acc (count : nat) (start : Z) (acc : bool) :
  calendar_ok_from start count acc = true -> acc = true.
Proof.
  revert start acc. induction count as [|c IH]; intros start acc H; simpl in H.
  - exact H.
  - apply IH in H. now apply andb_true_iff in H.
Qed.

Lemma calendar_ok_from_all (count : nat) (start : Z) (acc : bool) (n : Z) :
  calendar_ok_from start count acc = true ->
  (start <= n < start + Z.of_nat count)%Z ->
  calendar_ok n = true.
Proof.
  revert start acc. induction count as [|c IH]; intros start acc H Hn.
  - lia.
  - simpl in H. destruct (Z.eq_dec n start) as [-> | Hne].
    + apply calendar_ok_from_acc in H. now apply andb_true_iff in H.
    + apply (IH (start + 1)%Z _ H). lia.
Qed.

(** From 1970-01-01 to 2069-12-31 [civil_from_days] returns a valid civil
    date and [days_from_civil] maps it back. *)
Lemma calendar_round_trip (n : Z) :
  (0 <= n <= 36524)%Z -> calendar_ok n = true.
Proof.
  intro H.
  apply (@calendar_ok_from_all (Z.to_nat 36525) 0%Z true n); [|lia].
  vm_compute. reflexivity.
Qed.

Lemma day_name_in_week (t : Z) : In (day_name t) days_order.
Proof.
  unfold day_name. apply nth_In.
  pose proof (Z.mod_pos_bound (t / ns_per_day + 3) 7 eq_refl) as H.
  change (List.length days_order) with 7%nat. lia.
Qed.

(** ** Groups of a projected accumulator *)

Section GroupProject.
Context {A A' B B' : Type}.
Variable zero : B.
Variable step : B -> A -> B.
Variable zero' : B'.
Variable step' : B' -> A' -> B'.
Variable f : A -> A'.
Variable proj : B -> B'.
Hypothesis proj_zero : proj zero = zero'.
Hypothesis proj_step : forall b a, proj (step b a) = step' (proj b) (f a).

Lemma upsert_project (k : string) (a : A) (g : list (string * B)) :
  map (fun x => (fst x, proj (snd x))) (upsert zero step k a g)
  = upsert zero' step' k (f a) (map (fun x => (fst x, proj (snd x))) g).
Proof.
  induction g as [|[k' b] g IH]; simpl.
  - now rewrite proj_step, proj_zero.
  - destruct (String.eqb k k'); simpl.
    + now rewrite proj_step.
    + now rewrite IH.
Qed.

Lemma collect_project (rows : list (option string * A))
  (g : list (string * B)) :
  map (fun x => (fst x, proj (snd x)))
      (fold_left (collect1 zero step) rows g)
  = fold_left (collect1 zero' step')
      (map (fun r => (fst r, f (snd r))) rows)
      (map (fun x => (fst x, proj (snd x))) g).
Proof.
  revert g. induction rows as [|[[k|] a] rows IH]; intro g; simpl.
  - reflexivity.
  - rewrite IH. unfold collect1. simpl. now rewrite upsert_project.
  - apply IH.
Qed.

Lemma insert_by_key_project (x : string * B) (l : list (string * B)) :
  map (fun x => (fst x, proj (snd x))) (insert_by_key x l)
  = insert_by_key (fst x, proj (snd x))
                  (map (fun x => (fst x, proj (snd x))) l).
Proof.
  induction l as [|y l IH]; simpl.
  - reflexivity.
  - destruct (String.leb (fst x) (fst y)); simpl.
    + reflexivity.
    + now rewrite IH.
Qed.

Lemma sort_by_key_project (l : list (string * B)) :
  map (fun x => (fst x, proj (snd x))) (sort_by_key l)
  = sort_by_key (map (fun x => (fst x, proj (snd x))) l).
Proof.
  induction l as [|x l IH]; simpl.
  - reflexivity.
  - now rewrite insert_by_key_project, IH.
Qed.

(** Grouping one column of the rows gives the matching component of the
    groups of the whole rows, key by key and in the same order. *)
Lemma groupby_project (rows : list (option string * A)) :
  map (fun x => (fst x, proj (snd x))) (groupby zero step rows)
  = groupby zero' step' (map (fun r => (fst r, f (snd r))) rows).
Proof.
  unfold groupby, collect.
  now rewrite sort_by_key_project, collect_project.
Qed.
End GroupProject.

Lemma combine_map_r {A B C : Type} (f : B -> C) (l : list A) (l' : list B) :
  combine l (map f l') = map (fun p => (fst p, f (snd p))) (combine l l').
Proof.
  revert l'. induction l as [|x l IH]; intros [|y l']; simpl;
    try reflexivity.
  now rewrite IH.
Qed.

Lemma combine_map_both {A B C : Type} (f : A -> B) (g : A -> C)
  (l : list A) :
  combine (map f l) (map g l) = map (fun x => (f x, g x)) l.
Proof.
  induction l as [|x l IH]; simpl; [reflexivity | now rewrite IH].
Qed.

Lemma dt_accessor_parsed (col : list date_cell) :
  Forall (fun c => Customers.is_str c = false) col ->
  dt_accessor col = Ok (map Customers.timestamp col).
Proof.
  intro H. unfold dt_accessor.
  replace (existsb Customers.is_str col) with false; [reflexivity|].
  symmetry. apply not_true_is_false. intro E.
  apply existsb_exists in E. destruct E as (c & Hin & E).
  rewrite Forall_forall in H. rewrite (H c Hin) in E. discriminate.
Qed.

(** ** The campaign charts *)

Lemma keyed_combine {A B : Type} (fk : A -> option string) (fv : A -> B)
  (l : list A) :
  keyed (combine (map fk l) (map fv l))
  = map fv (filter (fun x => notna (fk x)) l).
Proof.
  rewrite combine_map_both. unfold keyed.
  now rewrite filter_map_comm, map_map.
Qed.

Lemma notna_option_map {A B : Type} (f : A -> B) (x : option A) :
  notna (option_map f x) = notna x.
Proof. now destruct x. Qed.

Lemma campaign_dates_parsed (strptime : string -> option Z)
  (df : Campaigns.DataFrame) :
  Forall (Campaigns.row_clean strptime) df ->
  Forall (fun c => Customers.is_str c = false) (map Campaigns.Date df).
Proof.
  intro H. rewrite Forall_map. eapply Forall_impl; [|exact H].
  intros r (_ & _ & Hd). apply (to_datetime_not_str _ _ Hd).
Qed.

(** On a cleaned frame the chart generator reaches its tables. *)
Lemma campaign_figures (strptime : string -> option Z)
  (df : Campaigns.DataFrame) :
  Forall (Campaigns.row_clean strptime) df ->
  CampaignCharts.generate_visualizations df
  = Ok {| CampaignCharts.campaign_roi := Campaigns.campaign_stats df;
          CampaignCharts.conv_rate_vs_spend :=
            map (fun r => (Campaigns.Spend r,
                           CampaignCharts.Daily_Conv_Rate r,
                           Campaigns.Campaign_ID r)) df;
          CampaignCharts.impressions_trend :=
            CampaignCharts.monthly_impressions (campaign_months df) df;
          CampaignCharts.ctr_trend :=
            CampaignCharts.monthly_ctr (campaign_months df) df |}.
Proof.
  intro H. unfold CampaignCharts.generate_visualizations.
  rewrite (dt_accessor_parsed (campaign_dates_parsed H)). simpl.
  unfold campaign_months. now rewrite !map_map.
Qed.

(** X18.  On a cleaned campaign frame the chart generator returns its
    tables; the monthly CTR table and the monthly impressions table list
    the same months in the same order with the same impressions, and the
    bar chart is drawn from the campaign table of the report. *)
Theorem monthly_tables_agree (strptime : string -> option Z)
  (df : Campaigns.DataFrame) :
  Campaigns.cleaned strptime df ->
  exists figs,
    CampaignCharts.generate_visualizations df = Ok figs
    /\ CampaignCharts.campaign_roi figs = Campaigns.campaign_stats df
    /\ map (fun c => (CampaignCharts.ctr_Month c,
                      CampaignCharts.ctr_Impressions c))
           (CampaignCharts.ctr_trend figs)
       = CampaignCharts.impressions_trend figs
    /\ List.length (CampaignCharts.conv_rate_vs_spend figs) = List.length df.
Proof.
  intros [raw Hraw].
  pose proof (campaign_cleaned_rows _ _ Hraw) as Hclean.
  eexists. split; [apply (campaign_figures Hclean)|]. simpl.
  split; [reflexivity|]. split; [|apply length_map].
  unfold CampaignCharts.monthly_ctr, CampaignCharts.monthly_impressions.
  rewrite map_map. simpl.
  rewrite combine_map_r.
  rewrite <- (@groupby_project _ _ _ _ (0, 0) CampaignCharts.add_clicks
                0 nanadd Campaigns.Impressions (fun b => snd b)).
  - reflexivity.
  - reflexivity.
  - reflexivity.
Qed.

Lemma monthly_tables_agree_witness :
  exists figs,
    CampaignCharts.generate_visualizations
      (Examples.parsed MoreExamples.three_campaigns) = Ok figs
    /\ CampaignCharts.impressions_trend figs
       = [("2024-01"%string, 1800); ("2024-02"%string, 1200)].
Proof.
  destruct (@monthly_tables_agree strptime_mdY
              (Examples.parsed MoreExamples.three_campaigns))
    as (figs & Hf & _).
  - exists MoreExamples.three_campaigns. reflexivity.
  - exists figs. split; [exact Hf|].
    vm_compute in Hf. injection Hf as <-. reflexivity.
Defined.



(** X20.  The daily conversion rate of a row is a number exactly when the
    row has its Conversions and Clicks and the Clicks are not 0; it is
    then 100 * Conversions / Clicks, and lies between 0 and 100 when
    0 <= Conversions <= Clicks.  A row without clicks gets [inf], [-inf]
    or [nan], never 0. *)
Theorem daily_conv_rate_value (r : Campaigns.Row) :
  (is_finite (CampaignCharts.Daily_Conv_Rate r) = true
   <-> exists v c, Campaigns.Conversions r = Some v
                   /\ Campaigns.Clicks r = Some c /\ ~ c == 0)
  /\ (forall v c,
         Campaigns.Conversions r = Some v ->
         Campaigns.Clicks r = Some c -> ~ c == 0 ->
         exists q, CampaignCharts.Daily_Conv_Rate r = Fin q
                   /\ q == 100 * v / c
                   /\ (0 <= v -> v <= c -> 0 <= q /\ q <= 100)).
Proof.
  unfold CampaignCharts.Daily_Conv_Rate, CampaignCharts.series_divide.
  split.
  - destruct (Campaigns.Conversions r) as [v|],
             (Campaigns.Clicks r) as [c|]; simpl.
    + unfold np_divide. destruct (Qeq_bool c 0) eqn:E.
      * apply Qeq_bool_iff in E. split.
        -- destruct (v ?= 0); discriminate.
        -- intros (v' & c' & _ & Hc & Hne). injection Hc as <-.
           contradiction.
      * split; [|reflexivity]. intros _. exists v, c.
        repeat split. intro H. apply Qeq_bool_iff in H. congruence.
    + split; [discriminate|]. intros (v' & c' & _ & Hc & _). discriminate.
    + split; [discriminate|]. intros (v' & c' & Hv & _). discriminate.
    + split; [discriminate|]. intros (v' & c' & Hv & _). discriminate.
  - intros v c -> -> Hne. rewrite (np_divide_finite _ Hne). simpl.
    eexists. split; [reflexivity|]. split; [now field|].
    intros H0 H1.
    assert (Hc : 0 < c).
    { destruct (Qlt_le_dec 0 c) as [H | H]; [exact H|].
      exfalso. apply Hne. lra. }
    assert (Hlo : 0 <= v / c) by (apply Qle_shift_div_l; [assumption | lra]).
    assert (Hhi : v / c <= 1) by (apply Qle_shift_div_r; [assumption | lra]).
    split; lra.
Qed.

Lemma daily_conv_rate_value_witness :
  exists q,
    CampaignCharts.Daily_Conv_Rate
      (Examples.campaign "1/5/2024" "CAMP_1" 1000 40 3 50 120) = Fin q
    /\ q == 15 # 2.
Proof.
  destruct (proj2 (daily_conv_rate_value
                     (Examples.campaign "1/5/2024" "CAMP_1" 1000 40 3 50 120))
              3 40 eq_refl eq_refl) as (q & Hq & E & _).
  - discriminate.
  - exists q. split; [exact Hq|]. rewrite E. reflexivity.
Defined.

(** ** The customer charts *)

Lemma order_dates_parsed (strptime : string -> option Z)
  (df : Customers.DataFrame) :
  Forall (Customers.row_clean strptime) df ->
  Forall (fun c => Customers.is_str c = false) (map Customers.Order_Date df).
Proof.
  intro H. rewrite Forall_map. eapply Forall_impl; [|exact H].
  intros r Hr. apply (clean_row_not_str Hr).
Qed.

(** On a cleaned frame the chart generator reaches its tables. *)
Lemma customer_figures (strptime : string -> option Z)
  (df : Customers.DataFrame) :
  Forall (Customers.row_clean strptime) df ->
  CustomerCharts.generate_visualizations df
  = Ok {| CustomerCharts.revenue_over_time :=
            CustomerCharts.monthly_revenue (order_months df) df;
          CustomerCharts.category_bars := CustomerCharts.category_revenue df;
          CustomerCharts.order_distribution :=
            map Customers.Order_Amount df;
          CustomerCharts.day_of_week :=
            CustomerCharts.day_counts (order_days df);
          CustomerCharts.customer_segments :=
            (Customers.high_value_count (Customers.segment_customers df),
             Customers.med_value_count (Customers.segment_customers df),
             Customers.low_value_count (Customers.segment_customers df)) |}.
Proof.
  intro H. unfold CustomerCharts.generate_visualizations.
  rewrite (dt_accessor_parsed (order_dates_parsed H)). simpl.
  unfold order_months, order_days. now rewrite !map_map.
Qed.

(** X21.  On a cleaned customer frame the monthly revenue table shares
    out the orders that have a date: its sums add up to the revenue of
    those orders, and to the Total Revenue of the report when no order
    date is missing. *)
Theorem monthly_revenue_adds_up (strptime : string -> option Z)
  (df : Customers.DataFrame) :
  Customers.cleaned strptime df ->
  exists figs,
    CustomerCharts.generate_visualizations df = Ok figs
    /\ Qsum (map snd (CustomerCharts.revenue_over_time figs))
       == Customers.total_revenue (CustomerCharts.dated df)
    /\ (Forall (fun r => Customers.Order_Date r <> DNaT) df ->
        Qsum (map snd (CustomerCharts.revenue_over_time figs))
        == Customers.total_revenue df).
Proof.
  intros [raw Hraw].
  pose proof (customer_cleaned_rows _ _ Hraw) as Hclean.
  eexists. split; [apply (customer_figures Hclean)|]. simpl.
  assert (Hsum : Qsum (map snd (CustomerCharts.monthly_revenue
                                  (order_months df) df))
                 == Customers.total_revenue (CustomerCharts.dated df)).
  { unfold CustomerCharts.monthly_revenue.
    pose proof (@groupby_total _ _ 0 nanadd (fun q => q) or_0
                  (Qeq_refl 0)) as H.
    unfold group_total in H. rewrite H.
    - unfold order_months. rewrite keyed_combine.
      unfold Customers.total_revenue, CustomerCharts.dated.
      rewrite nansum_Qsum.
      rewrite (filter_ext _ (fun r => notna (Customers.timestamp
                                               (Customers.Order_Date r)))).
      + reflexivity.
      + intro r. apply notna_option_map.
    - intros b [a|]; simpl; ring. }
  split; [exact Hsum|].
  intro Hall. rewrite Hsum. unfold CustomerCharts.dated.
  rewrite filter_all; [reflexivity|].
  rewrite Forall_forall in *. intros r Hin.
  pose proof (clean_row_not_str (Hclean r Hin)) as Hs.
  specialize (Hall r Hin).
  destruct (Customers.Order_Date r); simpl in *;
    [discriminate | reflexivity | contradiction].
Qed.

Lemma monthly_revenue_adds_up_witness :
  exists figs,
    CustomerCharts.generate_visualizations (Examples.loaded Examples.trio)
    = Ok figs
    /\ Qsum (map snd (CustomerCharts.revenue_over_time figs))
       == Customers.total_revenue (Examples.loaded Examples.trio).
Proof.
  destruct (@monthly_revenue_adds_up strptime_mdY
              (Examples.loaded Examples.trio)) as (figs & Hf & _ & Hall).
  - exists Examples.trio. reflexivity.
  - exists figs. split; [exact Hf|]. apply Hall.
    repeat constructor; discriminate.
Defined.

Lemma insert_desc_perm (x : string * Q) (l : list (string * Q)) :
  Permutation (CustomerCharts.insert_desc x l) (x :: l).
Proof.
  induction l as [|y l IH]; simpl.
  - reflexivity.
  - destruct (Qle_bool (snd y) (snd x)).
    + reflexivity.
    + rewrite IH. apply perm_swap.
Qed.

Lemma sort_desc_perm (l : list (string * Q)) :
  Permutation (CustomerCharts.sort_desc l) l.
Proof.
  induction l as [|x l IH]; simpl.
  - reflexivity.
  - rewrite insert_desc_perm. now constructor.
Qed.

Lemma insert_desc_sorted (x : string * Q) (l : list (string * Q)) :
  descending l -> descending (CustomerCharts.insert_desc x l).
Proof.
  unfold descending. induction 1 as [|y l Hl IH Hy]; simpl.
  - repeat constructor.
  - destruct (Qle_bool (snd y) (snd x)) eqn:E.
    + apply Qle_bool_iff in E. constructor; [now constructor|].
      now constructor.
    + assert (Hxy : snd x <= snd y).
      { apply Qlt_le_weak, Qltb_lt. unfold Qltb. now rewrite E. }
      constructor; [exact IH|].
      destruct l as [|z l]; simpl.
      * now constructor.
      * destruct (Qle_bool (snd z) (snd x)).
        -- now constructor.
        -- inversion Hy; subst. now constructor.
Qed.

Lemma sort_desc_sorted (l : list (string * Q)) :
  descending (CustomerCharts.sort_desc l).
Proof.
  induction l as [|x l IH]; simpl.
  - constructor.
  - now apply insert_desc_sorted.
Qed.

(** X22.  The category table lists each category that occurs in the frame
    exactly once, from the largest revenue to the smallest, and its sums
    add up to the revenue of the orders that name a category; an order
    without category is in no bar. *)
Theorem category_bars_descending (df : Customers.DataFrame) :
  descending (CustomerCharts.category_revenue df)
  /\ NoDup (map fst (CustomerCharts.category_revenue df))
  /\ (forall k,
         In k (map fst (CustomerCharts.category_revenue df))
         <-> exists r, In r df /\ Customers.Category r = Some k)
  /\ Qsum (map snd (CustomerCharts.category_revenue df))
     == Customers.total_revenue (CustomerCharts.categorised df).
Proof.
  set (rows := map (fun r => (Customers.Category r, Customers.Order_Amount r))
                   df).
  assert (Hperm : Permutation (CustomerCharts.category_revenue df)
                              (groupby 0 nanadd rows))
    by apply sort_desc_perm.
  assert (Hkeys : Permutation
                    (map fst (CustomerCharts.category_revenue df))
                    (unique (dropna (map Customers.Category df)))).
  { rewrite (Permutation_map fst Hperm), groupby_keys_perm.
    unfold rows. now rewrite map_map. }
  split; [apply sort_desc_sorted|]. split; [|split].
  - apply (Permutation_NoDup (Permutation_sym Hkeys)), unique_NoDup.
  - intro k. split.
    + intro H. apply (Permutation_in _ Hkeys) in H.
      rewrite unique_In, dropna_In, in_map_iff in H.
      destruct H as (r & E & Hin). now exists r.
    + intros (r & Hin & E).
      apply (Permutation_in _ (Permutation_sym Hkeys)).
      rewrite unique_In, dropna_In, <- E. now apply in_map.
  - rewrite (Qsum_perm (Permutation_map snd Hperm)).
    pose proof (@groupby_total _ _ 0 nanadd (fun q => q) or_0
                  (Qeq_refl 0)) as H.
    unfold group_total in H. rewrite H.
    + unfold rows. rewrite <- combine_map_both, keyed_combine.
      unfold Customers.total_revenue, CustomerCharts.categorised.
      now rewrite nansum_Qsum.
    + intros b [a|]; simpl; ring.
Qed.

Lemma assoc_Some_In {B : Type} (g : list (string * B)) (k : string) (b : B) :
  assoc k g = Some b -> In (k, b) g.
Proof.
  induction g as [|[k' b'] g IH]; simpl; [discriminate|].
  destruct (String.eqb_spec k k') as [-> | _].
  - intro H. injection H as ->. now left.
  - intro H. right. now apply IH.
Qed.

(** Looking a key up does not depend on the order of the groups. *)
Lemma assoc_perm {B : Type} (g g' : list (string * B)) (k : string) :
  NoDup (map fst g) -> Permutation g g' -> assoc k g = assoc k g'.
Proof.
  intros Hnd Hperm.
  assert (Hnd' : NoDup (map fst g')).
  { apply (Permutation_NoDup (Permutation_map fst Hperm) Hnd). }
  destruct (assoc k g) as [b|] eqn:E.
  - apply assoc_Some_In in E. apply (Permutation_in _ Hperm) in E.
    symmetry. now apply assoc_In.
  - destruct (assoc k g') as [b'|] eqn:E'; [|reflexivity].
    apply assoc_Some_In in E'.
    apply (Permutation_in _ (Permutation_sym Hperm)) in E'.
    rewrite (assoc_In g k b' Hnd E') in E. discriminate.
Qed.

Lemma insert_count_perm (x : string * nat) (l : list (string * nat)) :
  Permutation (CustomerCharts.insert_count x l) (x :: l).
Proof.
  induction l as [|y l IH]; simpl.
  - reflexivity.
  - destruct (snd y <=? snd x)%nat.
    + reflexivity.
    + rewrite IH. apply perm_swap.
Qed.

Lemma value_counts_perm (col : list (option string)) :
  Permutation (CustomerCharts.value_counts col)
              (collect O (fun n (_ : unit) => S n)
                       (map (fun k => (k, tt)) col)).
Proof.
  unfold CustomerCharts.value_counts.
  induction (collect O (fun n (_ : unit) => S n)
                     (map (fun k => (k, tt)) col)) as [|x l IH]; simpl.
  - reflexivity.
  - rewrite insert_count_perm. now constructor.
Qed.

(** How often a value occurs in a column. *)
Lemma occurrences_cons (d : string) (x : option string)
  (col : list (option string)) :
  List.length (values_of d (map (fun k => (k, tt)) (x :: col)))
  = ((match x with
      | Some k => if String.eqb k d then 1 else 0
      | None => 0
      end)
     + List.length (values_of d (map (fun k => (k, tt)) col)))%nat.
Proof.
  unfold values_of. simpl. unfold has_key at 1. simpl.
  destruct x as [k|]; [|reflexivity].
  now destruct (String.eqb k d).
Qed.

Lemma size_units (l : list unit) (n : nat) :
  fold_left (fun n (_ : unit) => S n) l n = (n + List.length l)%nat.
Proof.
  revert n. induction l as [|x l IH]; intro n; simpl.
  - lia.
  - rewrite IH. lia.
Qed.

Lemma value_counts_entry (col : list (option string)) (d : string) :
  assoc d (CustomerCharts.value_counts col)
  = match List.length (values_of d (map (fun k => (k, tt)) col)) with
    | O => None
    | n => Some n
    end.
Proof.
  rewrite (assoc_perm d
             (g := CustomerCharts.value_counts col)
             (g' := collect O (fun n (_ : unit) => S n)
                            (map (fun k => (k, tt)) col))).
  - unfold collect. rewrite collect_assoc_from. simpl.
    destruct (values_of d (map (fun k => (k, tt)) col)) as [|v vals].
    + reflexivity.
    + simpl. now rewrite size_units.
  - rewrite (Permutation_map fst (value_counts_perm col)).
    rewrite collect_keys. apply unique_NoDup.
  - apply value_counts_perm.
Qed.

Lemma list_sum_indicator (k : string) (labels : list string) :
  NoDup labels -> In k labels ->
  list_sum (map (fun d => if String.eqb k d then 1 else 0)%nat labels)
  = 1%nat.
Proof.
  induction 1 as [|d labels Hd Hnd IH]; simpl; intro Hin.
  - contradiction.
  - destruct (String.eqb_spec k d) as [-> | Hne].
    + assert (H : forall l, ~ In d l ->
                 list_sum (map (fun d' => if String.eqb d d' then 1 else 0)%nat
                               l) = 0%nat).
      { induction l as [|x l IHl]; simpl; intro Hx; [reflexivity|].
        destruct (String.eqb_spec d x) as [-> | _].
        - exfalso. apply Hx. now left.
        - apply IHl. intro. apply Hx. now right. }
      now rewrite (H labels Hd).
    + destruct Hin as [-> | Hin]; [contradiction|]. now apply IH.
Qed.

Lemma list_sum_map_add {A : Type} (f g : A -> nat) (l : list A) :
  list_sum (map (fun x => f x + g x)%nat l)
  = (list_sum (map f l) + list_sum (map g l))%nat.
Proof.
  induction l as [|x l IH]; simpl; [reflexivity | rewrite IH; lia].
Qed.

Lemma list_sum_zero {A : Type} (l : list A) :
  list_sum (map (fun _ => 0%nat) l) = 0%nat.
Proof. induction l; simpl; auto. Qed.

(** Counting a column label by label, over labels that cover it, counts
    every cell that is not missing once. *)
Lemma occurrences_total (labels : list string) (col : list (option string)) :
  NoDup labels ->
  (forall k, In (Some k) col -> In k labels) ->
  list_sum (map (fun d => List.length
                            (values_of d (map (fun k => (k, tt)) col)))
                labels)
  = List.length (dropna col).
Proof.
  intros Hnd. induction col as [|x col IH]; intro Hcov.
  - simpl. apply list_sum_zero.
  - rewrite (map_ext _ _ (fun d => occurrences_cons d x col)).
    rewrite list_sum_map_add, IH.
    2:{ intros k Hk. apply Hcov. now right. }
    destruct x as [k|]; simpl.
    + rewrite list_sum_indicator; [reflexivity | exact Hnd|].
      apply Hcov. now left.
    + now rewrite list_sum_zero.
Qed.

Lemma dropna_map_length {A B : Type} (f : A -> option B) (l : list A) :
  List.length (dropna (map f l))
  = List.length (filter (fun x => notna (f x)) l).
Proof.
  induction l as [|x l IH]; simpl; [reflexivity|].
  destruct (f x); simpl; now rewrite IH.
Qed.

Lemma days_order_NoDup : NoDup days_order.
Proof.
  unfold days_order.
  repeat (constructor;
          [simpl; intro H;
           repeat (destruct H as [H | H]; [discriminate|]); exact H|]).
  constructor.
Qed.

(** X23.  On a cleaned customer frame the day-of-week table has its seven
    lines, Monday to Sunday, whatever the orders; a day on which no order
    was placed has a missing count, never a count of 0; and the counts
    that are present add up to the number of orders that have a date. *)
Theorem day_of_week_counts (strptime : string -> option Z)
  (df : Customers.DataFrame) :
  Customers.cleaned strptime df ->
  exists figs,
    CustomerCharts.generate_visualizations df = Ok figs
    /\ map fst (CustomerCharts.day_of_week figs) = days_order
    /\ Forall (fun g => snd g <> Some 0%nat) (CustomerCharts.day_of_week figs)
    /\ (forall d,
           In (d, None) (CustomerCharts.day_of_week figs)
           <-> In d days_order /\ ~ In (Some d) (order_days df))
    /\ CustomerCharts.present_total (CustomerCharts.day_of_week figs)
       = List.length (CustomerCharts.dated df).
Proof.
  intros [raw Hraw].
  pose proof (customer_cleaned_rows _ _ Hraw) as Hclean.
  eexists. split; [apply (customer_figures Hclean)|].
  cbn [CustomerCharts.day_of_week].
  unfold CustomerCharts.day_counts, CustomerCharts.reindex.
  pose proof days_order_NoDup as Hnd.
  pose proof day_name_in_week as Hday.
  remember days_order as week eqn:Hweek in *. clear Hweek.
  split; [|split; [|split]].
  - rewrite map_map. apply map_id.
  - rewrite Forall_map, Forall_forall. intros d _. cbn [snd].
    rewrite value_counts_entry.
    destruct (List.length _); [discriminate|]. intro H. discriminate.
  - intro d. rewrite in_map_iff. split.
    + intros (d' & E & Hin). injection E as -> E.
      split; [exact Hin|]. rewrite value_counts_entry in E.
      destruct (values_of d (map (fun k => (k, tt)) (order_days df)))
        as [|v vals] eqn:Ev; [|discriminate].
      intro Hd.
      assert (Hk : In d (unique (dropna (map fst
                          (map (fun k => (k, tt)) (order_days df)))))).
      { rewrite unique_In, dropna_In, map_map. cbn [fst].
        now rewrite map_id. }
      apply values_of_nonempty in Hk. contradiction.
    + intros (Hin & Hno). exists d. split; [|exact Hin]. f_equal.
      rewrite value_counts_entry.
      destruct (values_of d (map (fun k => (k, tt)) (order_days df)))
        as [|v vals] eqn:Ev; [reflexivity|].
      exfalso. apply Hno.
      assert (Hv : In v (values_of d (map (fun k => (k, tt))
                                         (order_days df))))
        by (rewrite Ev; now left).
      apply values_of_In in Hv. apply in_map_iff in Hv.
      destruct Hv as (x & E & Hx). now injection E as ->.
  - unfold CustomerCharts.present_total. rewrite map_map. cbn [snd].
    rewrite (map_ext _ (fun d => List.length
                                   (values_of d (map (fun k => (k, tt))
                                                     (order_days df))))).
    2:{ intro d. rewrite value_counts_entry. now destruct (List.length _). }
    rewrite occurrences_total.
    + unfold order_days. rewrite dropna_map_length.
      unfold CustomerCharts.dated. f_equal. apply filter_ext.
      intro r. apply notna_option_map.
    + exact Hnd.
    + intros k Hk. unfold order_days in Hk. apply in_map_iff in Hk.
      destruct Hk as (r & E & _).
      destruct (Customers.timestamp (Customers.Order_Date r)) as [t|];
        [|discriminate].
      injection E as <-. apply Hday.
Qed.

Lemma day_of_week_counts_witness :
  exists figs,
    CustomerCharts.generate_visualizations (Examples.loaded Examples.trio)
    = Ok figs
    /\ CustomerCharts.present_total (CustomerCharts.day_of_week figs) = 6%nat
    /\ In ("Wednesday"%string, None) (CustomerCharts.day_of_week figs).
Proof.
  destruct (@day_of_week_counts strptime_mdY (Examples.loaded Examples.trio))
    as (figs & Hf & _ & _ & Hnone & Htot).
  - exists Examples.trio. reflexivity.
  - exists figs. split; [exact Hf|]. split; [exact Htot|].
    apply Hnone. split.
    + right. right. left. reflexivity.
    + vm_compute. intro H.
      repeat (destruct H as [H | H]; [discriminate|]). exact H.
Defined.

Lemma segment_counts_add_up (df : Customers.DataFrame) :
  (0 < Customers.active_customers df)%nat ->
  (Customers.high_value_count (Customers.segment_customers df)
   + Customers.med_value_count (Customers.segment_customers df)
   + Customers.low_value_count (Customers.segment_customers df)
   = Customers.active_customers df)%nat.
Proof.
  intro Hact.
  destruct (cutoffs_ordered df Hact) as (h & md & Hh & Hmd & Hle).
  rewrite active_customers_spec, <- revenue_values_length.
  unfold Customers.segment_customers in *. simpl in *.
  apply count_partition. rewrite Forall_forall. intros x _.
  rewrite Hh, Hmd. now apply one_segment.
Qed.

(** X24.  On a non-empty cleaned customer frame the three counts of the
    segment pie, which the chart generator computes again, are the High,
    Medium and Low Value Counts of the record, and they add up to the
    Active Customers. *)
Theorem pie_matches_record (strptime : string -> option Z)
  (df : Customers.DataFrame) (store : Customers.Store) :
  Customers.cleaned strptime df ->
  df <> [] ->
  exists figs m high med low,
    CustomerCharts.generate_visualizations df = Ok figs
    /\ Customers.calculate_metrics df store = (Some m, Ok m)
    /\ CustomerCharts.customer_segments figs = (high, med, low)
    /\ high = Customers.High_Value_Count m
    /\ med = Customers.Medium_Value_Count m
    /\ low = Customers.Low_Value_Count m
    /\ (high + med + low = Customers.Active_Customers m)%nat.
Proof.
  intros [raw Hraw] Hne.
  pose proof (customer_cleaned_rows _ _ Hraw) as Hclean.
  pose proof (customers_nonempty Hclean Hne) as Hact.
  destruct (customer_metrics_written store Hclean Hne)
    as (m & Hm & Hactive & _ & _ & _ & _ & _ & Hhigh & Hmed & Hlow).
  eexists. exists m. do 3 eexists.
  split; [apply (customer_figures Hclean)|]. split; [exact Hm|].
  split; [reflexivity|].
  rewrite Hhigh, Hmed, Hlow, Hactive.
  repeat split. now apply segment_counts_add_up.
Qed.

Lemma pie_matches_record_witness :
  exists figs,
    CustomerCharts.generate_visualizations (Examples.loaded Examples.trio)
    = Ok figs
    /\ CustomerCharts.customer_segments figs = (1, 1, 1)%nat.
Proof.
  destruct (@pie_matches_record strptime_mdY
              (Examples.loaded Examples.trio) None)
    as (figs & m & h & md & l & Hf & _ & Hs & _).
  - exists Examples.trio. reflexivity.
  - discriminate.
  - exists figs. split; [exact Hf|].
    vm_compute in Hf. injection Hf as <-. reflexivity.
Defined.
